(** * Boss platform generators (blender_scripts/boss_platform*.py)

    A shallow embedding of the procedural layout code of the boss platform
    scripts.  Python floats are modelled as real numbers, [math.cos],
    [math.sin], [math.sqrt] as [cos], [sin], [sqrt], and [math.atan2] as
    [atan2] below.  Every [bpy.ops.mesh.primitive_*_add] call is modelled as
    the creation of an [Obj] record carrying the primitive kind, its
    parameters and its pose; the Blender host itself (mesh kernels,
    modifiers, export) is not re-implemented. *)

From Stdlib Require Import Reals Lra Psatz String List Arith Lia ZArith.
Import ListNotations.
Open Scope R_scope.

(* ------------------------------------------------------------------ *)
(** ** Values shared by every script *)

Definition R3 : Type := (R * R * R)%type.
Definition R2 : Type := (R * R)%type.

(** [math.atan2] (C semantics). *)
Definition atan2 (y x : R) : R :=
  match total_order_T x 0 with
  | inright _ => atan (y / x)
  | inleft (left _) =>
      match Rle_lt_dec 0 y with
      | left _ => atan (y / x) + PI
      | right _ => atan (y / x) - PI
      end
  | inleft (right _) =>
      match total_order_T y 0 with
      | inright _ => PI / 2
      | inleft (left _) => - (PI / 2)
      | inleft (right _) => 0
      end
  end.

(** [math.dist] on two points of the plane or of space. *)
Definition dist2 (p q : R2) : R :=
  sqrt ((fst q - fst p) ^ 2 + (snd q - snd p) ^ 2).

Definition dist3 (p q : R3) : R :=
  let '(x1, y1, z1) := p in
  let '(x2, y2, z2) := q in
  sqrt ((x2 - x1) ^ 2 + (y2 - y1) ^ 2 + (z2 - z1) ^ 2).

(** The primitives requested from the host, with the parameters the
    scripts pass ([bpy.ops.mesh.primitive_*_add]); [Empty] is
    [bpy.ops.object.empty_add(type='PLAIN_AXES')]. *)
Inductive Prim :=
| Cylinder (vertices : nat) (radius depth : R)
| Cone (vertices : nat) (radius1 radius2 depth : R)
| Torus (major_radius minor_radius : R) (major_segments minor_segments : nat)
| UVSphere (segments ring_count : nat) (radius : R)
| IcoSphere (subdivisions : nat) (radius : R)
| Plane (size : R)
| Empty.

(** Defaults of the Blender operators for the arguments the scripts omit. *)
Definition default_cylinder_vertices : nat := 32.

Definition is_mesh_prim (p : Prim) : bool :=
  match p with Empty => false | _ => true end.

(** Object names: a fixed string, an f-string over integer indices, or
    an f-string over one float ([f"Ritual_Ring_{radius:.1f}"]). *)
Inductive Name :=
| NFixed (s : string)
| NIdx (prefix : string) (ixs : list nat)
| NReal (prefix : string) (x : R).

(** Edits applied to an object's mesh data before it is finished:
    an applied bevel modifier, the bmesh taper of the pillar shafts,
    [transform_apply(scale=True)] of an object scale, an object scale
    left unapplied, and the bmesh jitter [x += sin(x * freq) * amp] of
    every vertex. *)
Inductive Deform :=
| Bevel (width : R) (segments : nat)
| BmTaper
| ApplyScale (s : R3)
| ObjScale (s : R3)
| BmJitterX (amp freq : R).

Record Obj := mkObj {
  o_prim : Prim;
  o_name : Name;
  o_loc : R3;
  o_rot : R3;
  o_deforms : list Deform;
  o_mat : string;
  o_parent : option string
}.

Definition is_mesh (o : Obj) : bool := is_mesh_prim (o_prim o).

Definition count_mesh (l : list Obj) : nat := List.length (filter is_mesh l).

(** [range(n)] *)
Definition range (n : nat) : list nat := seq 0 n.

(* ------------------------------------------------------------------ *)
(** ** The host scene and the [random] module as explicit state *)

Module Host.

(** Python's [random] module after [random.seed(s)] produces a fixed
    stream of [random()] values; the stream of each seed is taken as a
    parameter ([mt_stream s k] is the [k]-th output after [seed(s)]). *)
Record RngState := mkRng { rng_seed : Z; rng_pos : nat }.

Record St := mkSt {
  st_objs : list Obj;
  st_rng : RngState
}.

Definition M (A : Type) : Type := St -> A * St.

Definition ret {A} (a : A) : M A := fun s => (a, s).

Definition bind {A B} (m : M A) (k : A -> M B) : M B :=
  fun s => let '(a, s') := m s in k a s'.

Notation "x <- m ;; k" := (bind m (fun x => k))
  (at level 61, m at next level, right associativity).
Notation "m ;;; k" := (bind m (fun _ => k))
  (at level 61, right associativity).

Fixpoint mapM {A B} (f : A -> M B) (l : list A) : M (list B) :=
  match l with
  | [] => ret []
  | x :: xs => y <- f x ;; ys <- mapM f xs ;; ret (y :: ys)
  end.

(** A primitive operator adds the new object to the scene; the attribute
    writes that follow it in the scripts act on [bpy.context.object], so
    the object is added with its final attributes. *)
Definition add_obj (o : Obj) : M Obj :=
  fun s => (o, mkSt (st_objs s ++ [o]) (st_rng s)).

(** [random.seed(s)] *)
Definition seed (z : Z) : M unit :=
  fun s => (tt, mkSt (st_objs s) (mkRng z 0)).

Section Random.
Variable mt_stream : Z -> nat -> R.

(** [random.random()] *)
Definition random_random : M R :=
  fun s =>
    let g := st_rng s in
    (mt_stream (rng_seed g) (rng_pos g),
     mkSt (st_objs s) (mkRng (rng_seed g) (S (rng_pos g)))).

(** [random.uniform(a, b)] is [a + (b - a) * random()] in CPython. *)
Definition random_uniform (a b : R) : M R :=
  u <- random_random ;; ret (a + (b - a) * u).
End Random.

(** [cleanup()]: select every object and delete it (orphan data blocks
    are then purged; they hold no objects). *)
Definition cleanup : M unit :=
  fun s => (tt, mkSt [] (st_rng s)).

End Host.

(* ------------------------------------------------------------------ *)
(** ** boss_platform_v5.py (the canonical builder) *)

Module V5.
Import Host.

Definition NUM_SIDES : nat := 6.
Definition PLATFORM_RADIUS : R := 7.0.
Definition PLATFORM_HEIGHT : R := 0.5.
Definition PILLAR_HEIGHT : R := 3.0.
Definition PILLAR_RADIUS : R := 0.35.

Definition mk (p : Prim) (n : Name) (loc rot : R3) (d : list Deform)
  (mat : string) : Obj := mkObj p n loc rot d mat None.

Definition no_rot : R3 := (0, 0, 0).

(** [create_floor()] *)
Definition create_floor : M Obj :=
  add_obj (mk (Cylinder 6 PLATFORM_RADIUS PLATFORM_HEIGHT) (NFixed "Floor")
             (0, 0, - PLATFORM_HEIGHT / 2) (0, 0, PI / 6)
             [Bevel 0.08 2] "floor").

(** [create_ritual_ring(radius, thickness)] *)
Definition create_ritual_ring (radius thickness : R) : M Obj :=
  add_obj (mk (Torus radius thickness 48 12) (NReal "Ritual_Ring_" radius)
             (0, 0, 0.02) no_rot [] "ritual").

(** [create_pillar(x, y, index)]: shaft (tapered), base, capital, brazier
    bowl, fire, crystal. *)
Definition create_pillar (x y : R) (index : nat) : M (list Obj) :=
  shaft <- add_obj (mk (Cylinder 12 PILLAR_RADIUS PILLAR_HEIGHT)
                       (NIdx "Pillar_" [index]) (x, y, PILLAR_HEIGHT / 2)
                       no_rot [BmTaper] "obsidian") ;;
  base <- add_obj (mk (Cylinder 12 (PILLAR_RADIUS * 1.5) 0.2)
                      (NIdx "Pillar_Base_" [index]) (x, y, 0.1)
                      no_rot [] "obsidian") ;;
  cap <- add_obj (mk (Cylinder 12 (PILLAR_RADIUS * 1.2) 0.12)
                     (NIdx "Pillar_Cap_" [index]) (x, y, PILLAR_HEIGHT - 0.06)
                     no_rot [] "obsidian") ;;
  brazier <- add_obj (mk (Cone 12 0.3 0.2 0.2)
                         (NIdx "Brazier_" [index]) (x, y, PILLAR_HEIGHT + 0.1)
                         no_rot [] "metal") ;;
  fire <- add_obj (mk (UVSphere 12 8 0.15)
                      (NIdx "Fire_" [index]) (x, y, PILLAR_HEIGHT + 0.25)
                      no_rot [] "fire") ;;
  crystal <- add_obj (mk (IcoSphere 2 0.12)
                         (NIdx "Crystal_" [index]) (x, y, PILLAR_HEIGHT + 0.55)
                         no_rot [ApplyScale (0.7, 0.7, 1.4)] "crystal") ;;
  ret [shaft; base; cap; brazier; fire; crystal].

(** [create_altar()]: three hexagonal tiers, fire pillar, soul orb. *)
Definition create_altar : M (list Obj) :=
  base <- add_obj (mk (Cylinder 6 1.2 0.25) (NFixed "Altar_Base")
                      (0, 0, 0.125) (0, 0, PI / 6) [] "obsidian") ;;
  mid <- add_obj (mk (Cylinder 6 0.8 0.2) (NFixed "Altar_Mid")
                     (0, 0, 0.35) (0, 0, PI / 6) [] "obsidian") ;;
  top <- add_obj (mk (Cylinder 6 0.5 0.1) (NFixed "Altar_Top")
                     (0, 0, 0.5) (0, 0, PI / 6) [] "altar") ;;
  fire_pillar <- add_obj (mk (Cylinder 16 0.12 1.2) (NFixed "Fire_Pillar")
                             (0, 0, 1.15) no_rot [] "fire") ;;
  orb <- add_obj (mk (UVSphere 16 12 0.2) (NFixed "Soul_Orb")
                     (0, 0, 1.9) no_rot [] "soul") ;;
  ret [base; mid; top; fire_pillar; orb].

(** The planar point of spike [i] on edge [edge], before the inward pull
    (lines 294-306). *)
Definition edge_angle1 (edge : nat) : R := PI / 6 + INR edge * PI / 3.
Definition edge_angle2 (edge : nat) : R := PI / 6 + INR (edge + 1) * PI / 3.

Definition spike_t (i : nat) : R := INR (i + 1) / 4.

(** The hexagon corner [(x1, y1)] of edge [edge]. *)
Definition hex_corner (edge : nat) : R2 :=
  (PLATFORM_RADIUS * cos (edge_angle1 edge),
   PLATFORM_RADIUS * sin (edge_angle1 edge)).

Definition spike_edge_point (edge i : nat) : R2 :=
  let x1 := PLATFORM_RADIUS * cos (edge_angle1 edge) in
  let y1 := PLATFORM_RADIUS * sin (edge_angle1 edge) in
  let x2 := PLATFORM_RADIUS * cos (edge_angle2 edge) in
  let y2 := PLATFORM_RADIUS * sin (edge_angle2 edge) in
  let t := spike_t i in
  (x1 + (x2 - x1) * t, y1 + (y2 - y1) * t).

(** "Pull slightly inward" (lines 309-311). *)
Definition pull_inward (p : R2) : R2 :=
  let '(x, y) := p in
  let dist := sqrt (x * x + y * y) in
  (x * (dist - 0.3) / dist, y * (dist - 0.3) / dist).

Definition spike_position (edge i : nat) : R2 :=
  pull_inward (spike_edge_point edge i).

(** [create_edge_spikes()] *)
Definition create_spike (edge i : nat) : M Obj :=
  let '(x, y) := spike_position edge i in
  add_obj (mk (Cone 6 0.1 0.0 0.4) (NIdx "Spike_" [edge; i])
             (x, y, 0.2) no_rot [] "spike").

Definition create_edge_spikes : M (list Obj) :=
  per_edge <- mapM (fun edge => mapM (create_spike edge) (range 3)) (range 6) ;;
  ret (concat per_edge).

Section Skulls.
Variable mt_stream : Z -> nat -> R.

(** Position of a skull from its two draws (lines 332-335). *)
Definition skull_xy (angle r : R) : R2 := (r * cos angle, r * sin angle).

(** [create_skulls(count)] *)
Definition create_skull (i : nat) : M Obj :=
  angle <- random_uniform mt_stream 0 (2 * PI) ;;
  r <- random_uniform mt_stream 2.5 5.0 ;;
  let '(x, y) := skull_xy angle r in
  add_obj (mk (IcoSphere 2 0.08) (NIdx "Skull_" [i]) (x, y, 0.05) no_rot
             [ApplyScale (1.0, 0.8, 0.85)] "bone").

Definition create_skulls (count : nat) : M (list Obj) :=
  mapM create_skull (range count).
End Skulls.

(** [create_demon_horns()] *)
Definition create_horn (i : nat) : M Obj :=
  let angle := INR i * PI / 3 + PI / 6 in
  let r := 0.9 in
  add_obj (mk (Cone 6 0.06 0.0 0.35) (NIdx "Horn_" [i])
             (r * cos angle, r * sin angle, 0.55)
             (0.4 * sin angle, - 0.4 * cos angle, 0) [] "spike").

Definition create_demon_horns : M (list Obj) := mapM create_horn (range 6).

(** Pillar anchors (lines 391-395). *)
Definition pillar_anchor (i : nat) : R2 :=
  let angle := INR i * PI / 3 in
  let r := PLATFORM_RADIUS - 0.7 in
  (r * cos angle, r * sin angle).

Record BuildOut := mkBuild {
  b_floor : Obj;
  b_rings : list Obj;
  b_pillars : list (list Obj);   (* one composite per [create_pillar] call *)
  b_altar : list Obj;
  b_spikes : list Obj;
  b_skulls : list Obj;
  b_horns : list Obj
}.

(** The BUILD section (lines 378-408); [pillars.extend] flattens the
    composites, which are kept apart here. *)
Definition build (mt_stream : Z -> nat -> R) : M BuildOut :=
  floor <- create_floor ;;
  ring1 <- create_ritual_ring 5.5 0.1 ;;
  ring2 <- create_ritual_ring 3.5 0.08 ;;
  ring3 <- create_ritual_ring 1.8 0.06 ;;
  pillars <- mapM (fun i => let '(x, y) := pillar_anchor i in create_pillar x y i)
                  (range 6) ;;
  altar <- create_altar ;;
  spikes <- create_edge_spikes ;;
  skulls <- create_skulls mt_stream 8 ;;
  horns <- create_demon_horns ;;
  ret (mkBuild floor [ring1; ring2; ring3] pillars altar spikes skulls horns).

Definition ROOT_NAME : string := "Boss_Platform_V5".

(** Lines 417-423: add the root empty, then parent every other object
    without a parent to it. *)
Definition parent_to_root : M unit :=
  fun s =>
    let root := mkObj Empty (NFixed ROOT_NAME) (0, 0, 0) no_rot [] "" None in
    let reparent (o : Obj) :=
      match o_parent o with
      | None => mkObj (o_prim o) (o_name o) (o_loc o) (o_rot o) (o_deforms o)
                      (o_mat o) (Some ROOT_NAME)
      | Some _ => o
      end in
    (tt, mkSt (map reparent (st_objs s) ++ [root]) (st_rng s)).

(** The bmesh taper of the pillar shaft (lines 151-160), on the vertex
    buffer of the shaft mesh ([BmTaper]); [bm.verts] keeps its order. *)
Definition taper_vertex (v : R3) : R3 :=
  let '(x, y, z) := v in
  if Rlt_dec 0 z then
    let t := z / PILLAR_HEIGHT in
    let scale := 1.0 - 0.15 * t in
    (x * scale, y * scale, z)
  else (x, y, z).

Definition taper (verts : list R3) : list R3 := map taper_vertex verts.

(** The whole script: [random.seed(42)], [cleanup()], BUILD, parenting.
    The smooth-shading loop (lines 411-414) only sets shading flags, which
    the model does not carry. *)
Definition run (mt_stream : Z -> nat -> R) : M BuildOut :=
  seed 42 ;;; cleanup ;;; out <- build mt_stream ;; parent_to_root ;;; ret out.

End V5.

(* ------------------------------------------------------------------ *)
(** ** boss_platform.py (first revision): the corner pillar taper *)

Module V1.

Definition PILLAR_HEIGHT : R := 2.5.

(** [create_corner_pillar]: lines 281-285. *)
Definition taper_vertex (v : R3) : R3 :=
  let '(x, y, z) := v in
  if Rlt_dec 0 z then
    let scale := 1.0 - (z / PILLAR_HEIGHT) * 0.3 in
    (x * scale, y * scale, z)
  else (x, y, z).

Definition taper (verts : list R3) : list R3 := map taper_vertex verts.

End V1.

(* ------------------------------------------------------------------ *)
(** ** A scene with object identities, for the boolean ring carving

    The ring builders of V3 and V4 create two cylinders, apply a boolean
    DIFFERENCE modifier on the outer one with the inner one as operand,
    and remove the inner object.  The scene keeps each object under an
    identifier, and every host call is logged. *)

Module Scene.

Inductive HostCall :=
| CallAdd (p : Prim) (loc rot : R3)
| CallBoolDifference (target cutter : nat)
| CallRemove (id : nat).

(** The applied boolean leaves on the target the shape it subtracted. *)
Record Solid := mkSolid {
  s_obj : Obj;
  s_cuts : list (Prim * R3 * R3)
}.

Record CSt := mkCSt {
  c_objs : list (nat * Solid);
  c_next : nat;
  c_log : list HostCall
}.

Definition CM (A : Type) : Type := CSt -> A * CSt.

Definition cret {A} (a : A) : CM A := fun s => (a, s).
Definition cbind {A B} (m : CM A) (k : A -> CM B) : CM B :=
  fun s => let '(a, s') := m s in k a s'.

Notation "x <-- m ;; k" := (cbind m (fun x => k))
  (at level 61, m at next level, right associativity).

Definition lookup (id : nat) (l : list (nat * Solid)) : option Solid :=
  match find (fun p => Nat.eqb (fst p) id) l with
  | Some (_, o) => Some o
  | None => None
  end.

(** [bpy.ops.mesh.primitive_cylinder_add(...)]; [bpy.context.object]. *)
Definition add (o : Obj) : CM nat :=
  fun s =>
    let id := c_next s in
    (id, mkCSt (c_objs s ++ [(id, mkSolid o [])]) (S id)
               (c_log s ++ [CallAdd (o_prim o) (o_loc o) (o_rot o)])).

(** A DIFFERENCE boolean modifier on [target] with operand [cutter],
    then [modifier_apply]. *)
Definition bool_difference (target cutter : nat) : CM unit :=
  fun s =>
    let cut := match lookup cutter (c_objs s) with
               | Some c => [(o_prim (s_obj c), o_loc (s_obj c), o_rot (s_obj c))]
               | None => []
               end in
    let upd (p : nat * Solid) :=
      if Nat.eqb (fst p) target
      then (fst p, mkSolid (s_obj (snd p)) (s_cuts (snd p) ++ cut))
      else p in
    (tt, mkCSt (map upd (c_objs s)) (c_next s)
               (c_log s ++ [CallBoolDifference target cutter])).

(** [bpy.data.objects.remove(obj, do_unlink=True)] *)
Definition remove (id : nat) : CM unit :=
  fun s =>
    (tt, mkCSt (filter (fun p => negb (Nat.eqb (fst p) id)) (c_objs s))
               (c_next s) (c_log s ++ [CallRemove id])).

Definition cyl (p : Prim) (loc rot : R3) : Obj :=
  mkObj p (NFixed "Cylinder") loc rot [] "ritual" None.

(** The shared recipe of every ring builder: outer cylinder, inner
    cylinder, boolean difference, removal of the inner operand. *)
Definition carve_with (outer_p inner_p : Prim) (loc rot : R3) : CM nat :=
  outer <-- add (cyl outer_p loc rot) ;;
  inner <-- add (cyl inner_p loc rot) ;;
  _ <-- bool_difference outer inner ;;
  _ <-- remove inner ;;
  cret outer.

(** Bottom and top cap heights of an upright cylinder object. *)
Definition cyl_depth (p : Prim) : R :=
  match p with Cylinder _ _ d => d | _ => 0 end.
Definition cap_bottom (p : Prim) (loc : R3) : R :=
  let '(_, _, z) := loc in z - cyl_depth p / 2.
Definition cap_top (p : Prim) (loc : R3) : R :=
  let '(_, _, z) := loc in z + cyl_depth p / 2.

End Scene.

(* ------------------------------------------------------------------ *)
(** ** Lights, operator defaults and Blender's rotation convention *)

(** The builders that also add point lights return both kinds of parts:
    [bpy.ops.object.light_add(type='POINT', radius, location)] followed by
    the writes of [data.color] and [data.energy] ([shadow_soft_size], set
    by the first script only, is not carried). *)
Inductive Part :=
| PObj (o : Obj)
| PLight (loc : R3) (radius energy : R) (color : R3).

Definition part_loc (p : Part) : R3 :=
  match p with PObj o => o_loc o | PLight loc _ _ _ => loc end.

(** Defaults of [primitive_uv_sphere_add]. *)
Definition default_uv_segments : nat := 32.
Definition default_uv_ring_count : nat := 16.

(** Half the height of an unrotated primitive about its location (the
    operators centre every primitive on [location]); a sphere reaches its
    radius above and below. *)
Definition half_height (p : Prim) : R :=
  match p with
  | Cylinder _ _ d => d / 2
  | Cone _ _ _ d => d / 2
  | UVSphere _ _ r => r
  | IcoSphere _ r => r
  | Torus _ r _ _ => r
  | Plane _ => 0
  | Empty => 0
  end.

Definition z_of (p : R3) : R := let '(_, _, z) := p in z.

(** The vertical factor of the scales an object carries, applied
    ([transform_apply(scale=True)]) or left on the object: both stretch its
    height about its location. *)
Fixpoint z_scale (ds : list Deform) : R :=
  match ds with
  | [] => 1
  | ApplyScale s :: ds' | ObjScale s :: ds' => z_of s * z_scale ds'
  | _ :: ds' => z_scale ds'
  end.

(** Lowest and highest point of an object turned about Z only. *)
Definition half_extent (o : Obj) : R :=
  half_height (o_prim o) * z_scale (o_deforms o).
Definition bottom (o : Obj) : R := z_of (o_loc o) - half_extent o.
Definition top (o : Obj) : R := z_of (o_loc o) + half_extent o.

Module Blender.

(** [rotation_euler] in Blender's default mode ['XYZ']: a local vector is
    turned about X first, then about Y, then about Z (the matrix
    [Rz * Ry * Rx]). *)
Definition rot_x (a : R) (v : R3) : R3 :=
  let '(x, y, z) := v in (x, y * cos a - z * sin a, y * sin a + z * cos a).
Definition rot_y (b : R) (v : R3) : R3 :=
  let '(x, y, z) := v in (x * cos b + z * sin b, y, - x * sin b + z * cos b).
Definition rot_z (c : R) (v : R3) : R3 :=
  let '(x, y, z) := v in (x * cos c - y * sin c, x * sin c + y * cos c, z).

Definition euler_xyz (e : R3) (v : R3) : R3 :=
  let '(a, b, c) := e in rot_z c (rot_y b (rot_x a v)).

(** Cylinders and cones are built along their local Z axis; a cone with
    [radius2 = 0] has its tip at the [+Z] end. *)
Definition local_z : R3 := (0, 0, 1).

(** The world direction of an object's local Z axis. *)
Definition axis (o : Obj) : R3 := euler_xyz (o_rot o) local_z.

End Blender.

(* ------------------------------------------------------------------ *)
(** ** boss_platform_v4.py *)

Module V4.
Import Scene.

Definition NUM_SIDES : nat := 6.
Definition PLATFORM_SIZE : R := 14.0.
Definition PLATFORM_RADIUS : R := PLATFORM_SIZE / 2.
Definition PILLAR_HEIGHT : R := 2.5.
Definition tau : R := 2 * PI.

(** [hex_vertices(radius, offset)] *)
Definition hex_vertex (radius offset : R) (i : nat) : R2 :=
  (cos (offset + INR i * tau / INR NUM_SIDES) * radius,
   sin (offset + INR i * tau / INR NUM_SIDES) * radius).

Definition hex_vertices (radius offset : R) : list R2 :=
  map (hex_vertex radius offset) (range NUM_SIDES).

(** [edge_spikes()]: spike [j] of edge [i] (lines 185-194). *)
Definition spike_t (j : nat) : R := (INR j + 0.5) / 4.

Definition edge_spike_point (i j : nat) : R2 :=
  let verts := hex_vertices (PLATFORM_RADIUS + 0.05) (PI / 6) in
  let v1 := nth i verts (0, 0) in
  let v2 := nth ((i + 1) mod NUM_SIDES) verts (0, 0) in
  let vec := (fst v2 - fst v1, snd v2 - snd v1) in
  let t := spike_t j in
  (fst v1 + fst vec * t, snd v1 + snd vec * t).

Definition edge_spike (i j : nat) : Obj :=
  let verts := hex_vertices (PLATFORM_RADIUS + 0.05) (PI / 6) in
  let v1 := nth i verts (0, 0) in
  let v2 := nth ((i + 1) mod NUM_SIDES) verts (0, 0) in
  let ang := atan2 (snd v2 - snd v1) (fst v2 - fst v1) in
  let '(x, y) := edge_spike_point i j in
  mkObj (Cone 6 0.12 0 0.35) (NFixed "Cone") (x, y, 0.18) (0, 0, ang) []
        "obsidian" None.

Definition edge_spikes : list Obj :=
  concat (map (fun i => map (edge_spike i) (range 4)) (range NUM_SIDES)).

(** [hex_ring(radius, thickness, height)] and
    [circle_ring(r_inner, r_outer, height)] (lines 94-120). *)
Definition hex_ring (radius thickness height : R) : CM nat :=
  carve_with (Cylinder 6 radius height)
             (Cylinder 6 (radius - thickness) (height + 0.08))
             (0, 0, height / 2) (0, 0, PI / 6).

Definition circle_ring (r_inner r_outer height : R) : CM nat :=
  carve_with (Cylinder default_cylinder_vertices r_outer height)
             (Cylinder default_cylinder_vertices r_inner (height + 0.05))
             (0, 0, height / 2) (0, 0, 0).

(** The Bezier point of [chains_between] (lines 239-244). *)
Definition bez (points : R3 * R3 * R3) (t : R) : R3 :=
  let '(p0, p1, p2) := points in
  let '(x0, y0, z0) := p0 in
  let '(x1, y1, z1) := p1 in
  let '(x2, y2, z2) := p2 in
  let u := 1 - t in
  (u * u * x0 + 2 * u * t * x1 + t * t * x2,
   u * u * y0 + 2 * u * t * y1 + t * t * y2,
   u * u * z0 + 2 * u * t * z1 + t * t * z2).

(** One link [j] of the [links] little cylinders (lines 236-253). *)
Definition chain_link (points : R3 * R3 * R3) (links : nat) (radius : R)
  (j : nat) : Obj :=
  let t := INR j / INR links in
  let t2 := INR (j + 1) / INR links in
  let p1 := bez points t in
  let p2 := bez points t2 in
  let '(x1, y1, z1) := p1 in
  let '(x2, y2, z2) := p2 in
  let midp := ((x1 + x2) / 2, (y1 + y2) / 2, (z1 + z2) / 2) in
  let seg_len := dist3 p1 p2 in
  mkObj (Cylinder default_cylinder_vertices radius seg_len) (NFixed "Cylinder")
        midp (PI / 2, 0, atan2 (y2 - y1) (x2 - x1)) [] "metal" None.

Definition chain_segments (points : R3 * R3 * R3) (links : nat) (radius : R)
  : list Obj :=
  map (chain_link points links radius) (range links).

(** [chains_between(pillar_positions)]: a chain of [links = 12]
    cylinders of radius 0.035 between neighbouring pillars. *)
Definition chains_between (pillar_positions : list R2) : list Obj :=
  concat (map (fun i =>
    let a := nth i pillar_positions (0, 0) in
    let b := nth ((i + 1) mod NUM_SIDES) pillar_positions (0, 0) in
    let mid := ((fst a + fst b) / 2, (snd a + snd b) / 2) in
    let z_top := PILLAR_HEIGHT * 0.9 in
    let ctrl := (fst mid, snd mid, z_top - 0.3) in
    let points := ((fst a, snd a, z_top), ctrl, (fst b, snd b, z_top)) in
    chain_segments points 12 0.035) (range NUM_SIDES)).

(** [cracks_lava()] (lines 201-224): eight radial cracks of four
    cylinder segments; segment [s] of crack [i] joins [(x1, y1)] and
    [(x2, y2)]. *)
Definition crack_ends (i s : nat) : R2 * R2 :=
  let ang := INR i * tau / 8 + PI / 6 in
  let length := 3.0 in
  let r0 := 1.0 in
  let steps := 4%nat in
  let t0 := INR s / INR steps in
  let t1 := INR (s + 1) / INR steps in
  let r_start := r0 + length * t0 in
  let r_end := r0 + length * t1 in
  ((cos (ang + 0.05 * INR s) * r_start, sin (ang + 0.05 * INR s) * r_start),
   (cos (ang + 0.05 * INR (s + 1)) * r_end,
    sin (ang + 0.05 * INR (s + 1)) * r_end)).

Definition crack_segment (i s : nat) : Obj :=
  let '((x1, y1), (x2, y2)) := crack_ends i s in
  let seg_len := dist2 (x1, y1) (x2, y2) in
  mkObj (Cylinder default_cylinder_vertices 0.05 seg_len) (NFixed "Cylinder")
        ((x1 + x2) / 2, (y1 + y2) / 2, 0.03)
        (PI / 2, 0, atan2 (y2 - y1) (x2 - x1)) [] "lava" None.

Definition cracks_lava : list Obj :=
  concat (map (fun i => map (crack_segment i) (range 4)) (range 8)).

(** [rune_beams(pillar_positions)] (lines 256-266). *)
Definition rune_beam (p : R2) : Obj :=
  let '(x, y) := p in
  let midz := 0.12 in
  mkObj (Cylinder default_cylinder_vertices 0.04 (sqrt (x * x + y * y) + 0.1))
        (NFixed "Cylinder") (x / 2, y / 2, midz) (PI / 2, 0, atan2 y x) []
        "ritual" None.

Definition rune_beams (pillar_positions : list R2) : list Obj :=
  map rune_beam pillar_positions.

(** [horns()] (lines 281-293): [rotation_euler.x] and [.z] are written
    after the operator, [.y] keeps its 0. *)
Definition horn (i : nat) : Obj :=
  let radius := 1.1 in
  let z := 0.6 in
  let ang := INR i * tau / 6 + PI / 6 in
  mkObj (Cone 8 0.1 0 0.45) (NFixed "Cone")
        (cos ang * radius, sin ang * radius, z) (-0.5, 0, ang + PI) []
        "metal" None.

Definition horns : list Obj := map horn (range 6).

(** [pillar(pos)] (lines 134-181).  The bmesh loop of the crystal scales
    the z of every vertex by 1.6, as an applied scale [(1, 1, 1.6)]. *)
Definition pillar (pos : R2) : list Part :=
  let '(x, y) := pos in
  let cap_z := PILLAR_HEIGHT + 0.06 in
  let brazier_z := cap_z + 0.1 in
  [PObj (mkObj (Cylinder 12 0.32 PILLAR_HEIGHT) (NFixed "Cylinder")
               (x, y, PILLAR_HEIGHT / 2) (0, 0, 0) [BmTaper] "obsidian" None);
   PObj (mkObj (Cylinder 12 0.48 0.18) (NFixed "Cylinder")
               (x, y, 0.09) (0, 0, 0) [] "obsidian" None);
   PObj (mkObj (Cylinder 12 0.26 0.12) (NFixed "Cylinder")
               (x, y, cap_z) (0, 0, 0) [] "obsidian" None);
   PObj (mkObj (IcoSphere 2 0.18) (NFixed "Icosphere")
               (x, y, PILLAR_HEIGHT + 0.45) (0, 0, 0) [ApplyScale (1, 1, 1.6)]
               "crystal" None);
   PObj (mkObj (Cylinder 16 0.22 0.08) (NFixed "Cylinder")
               (x, y, brazier_z) (0, 0, 0) [] "metal" None)] ++
  map (fun hs : R * R => let '(h, s) := hs in
         PObj (mkObj (UVSphere default_uv_segments default_uv_ring_count s)
                     (NFixed "Sphere") (x, y, brazier_z + h) (0, 0, 0) []
                     "fire" None))
      [(0.02, 0.12); (0.12, 0.1); (0.22, 0.08)] ++
  [PLight (x, y, PILLAR_HEIGHT + 0.45) 0.5 25 (0.6, 0.2, 0.9);
   PLight (x, y, brazier_z + 0.15) 0.4 80 (1.0, 0.5, 0.2)].

(** [altar()] (lines 295-311). *)
Definition altar : list Part :=
  [PObj (mkObj (Cylinder 6 1.3 0.25) (NFixed "Cylinder") (0, 0, 0.125)
               (0, 0, PI / 6) [] "obsidian" None);
   PObj (mkObj (Cylinder 6 0.9 0.2) (NFixed "Cylinder") (0, 0, 0.35)
               (0, 0, PI / 6) [] "obsidian" None);
   PObj (mkObj (Cylinder 6 0.55 0.14) (NFixed "Cylinder") (0, 0, 0.54)
               (0, 0, PI / 6) [] "stone" None);
   PObj (mkObj (Cylinder default_cylinder_vertices 0.16 1.2) (NFixed "Cylinder")
               (0, 0, 1.14) (0, 0, 0) [] "fire" None);
   PObj (mkObj (UVSphere default_uv_segments default_uv_ring_count 0.22)
               (NFixed "Sphere") (0, 0, 1.8) (0, 0, 0) [] "ritual" None);
   PLight (0, 0, 1.5) 1.0 120 (1.0, 0.3, 0.1)].

(** The pillar positions of the build section (lines 328-333). *)
Definition PILLAR_RADIUS_POS : R := PLATFORM_RADIUS - 0.5.

Definition pillar_position (i : nat) : R2 :=
  let ang := PI / 6 + INR i * PI / 3 - PI / 6 in
  (cos ang * PILLAR_RADIUS_POS, sin ang * PILLAR_RADIUS_POS).

Definition pillar_positions : list R2 := map pillar_position (range NUM_SIDES).

(** [runes(radius, count)] (lines 122-132): a plane per rune on the circle
    of [radius], turned about z by [ang + pi/2]. *)
Definition rune_angle (count i : nat) : R := INR i * tau / INR count + PI / 6.

Definition rune (radius : R) (count i : nat) : Obj :=
  let ang := rune_angle count i in
  mkObj (Plane 0.32) (NFixed "Plane") (cos ang * radius, sin ang * radius, 0.03)
        (0, 0, ang + PI / 2) [] "ritual" None.

Definition runes (radius : R) (count : nat) : list Obj :=
  map (rune radius count) (range count).

Definition PLATFORM_HEIGHT : R := 0.6.

(** [hex_floor()] (lines 83-92). *)
Definition hex_floor : Obj :=
  mkObj (Cylinder 6 (PLATFORM_RADIUS + 0.25) PLATFORM_HEIGHT) (NFixed "Cylinder")
        (0, 0, - PLATFORM_HEIGHT / 2) (0, 0, PI / 6) [Bevel 0.12 3] "stone" None.

Section Skulls.
Variable mt_stream : Z -> nat -> R.

(** One pass of the loop of [skulls(count, radius)] (lines 268-279):
    two [random.random()] draws, then [sk.scale[2] *= 0.8] on the new
    object (scale left unapplied). *)
Definition skull (radius : R) (_ : nat) : Host.M Obj :=
  Host.bind (Host.random_random mt_stream) (fun u1 =>
  let ang := u1 * tau in
  Host.bind (Host.random_random mt_stream) (fun u2 =>
  let r := radius * sqrt u2 in
  let x := cos ang * r in
  let y := sin ang * r in
  Host.add_obj (mkObj (IcoSphere 2 0.12) (NFixed "Icosphere") (x, y, 0.06)
                      (0, 0, 0) [ObjScale (1, 1, 0.8)] "bone" None))).

Definition skulls (count : nat) (radius : R) : Host.M (list Obj) :=
  Host.mapM (skull radius) (range count).
End Skulls.

End V4.

(* ------------------------------------------------------------------ *)
(** ** boss_platform_v3.py *)

Module V3.

Definition NUM_SIDES : nat := 6.
Definition PLATFORM_SIZE : R := 14.0.
Definition PLATFORM_RADIUS : R := PLATFORM_SIZE / 2.
Definition PILLAR_RADIUS_POS : R := PLATFORM_RADIUS - 0.5.
Definition tau : R := 2 * PI.

(** [create_hex_ring] and [create_circle_ring] (lines 194-222). *)
Definition create_hex_ring (radius thickness height : R) : Scene.CM nat :=
  Scene.carve_with (Cylinder 6 radius height)
                   (Cylinder 6 (radius - thickness) (height + 0.1))
                   (0, 0, height / 2) (0, 0, PI / 6).

Definition create_circle_ring (r_inner r_outer height : R) : Scene.CM nat :=
  Scene.carve_with (Cylinder default_cylinder_vertices r_outer height)
                   (Cylinder default_cylinder_vertices r_inner (height + 0.05))
                   (0, 0, height / 2) (0, 0, 0).

(** Pillar positions (lines 490-495). *)
Definition pillar_position (i : nat) : R2 :=
  let angle := PI / 6 + INR i * PI / 3 - PI / 6 in
  (cos angle * PILLAR_RADIUS_POS, sin angle * PILLAR_RADIUS_POS).

Definition pillar_positions : list R2 := map pillar_position (range NUM_SIDES).

Definition PLATFORM_HEIGHT : R := 0.6.

(** [create_hex_floor()] (lines 177-191). *)
Definition create_hex_floor : Obj :=
  mkObj (Cylinder 6 (PLATFORM_RADIUS + 0.25) PLATFORM_HEIGHT) (NFixed "Cylinder")
        (0, 0, - PLATFORM_HEIGHT / 2) (0, 0, PI / 6) [Bevel 0.12 3] "stone" None.

Import Host.

Section Skulls.
Variable mt_stream : Z -> nat -> R.

(** [create_skulls(count, radius)] (lines 404-416). *)
Definition create_skull (radius : R) (i : nat) : M Obj :=
  u1 <- random_random mt_stream ;;
  let ang := u1 * tau in
  u2 <- random_random mt_stream ;;
  let r := radius * sqrt u2 in
  let x := cos ang * r in
  let y := sin ang * r in
  add_obj (mkObj (IcoSphere 2 0.12) (NFixed "Icosphere") (x, y, 0.06)
                 (0, 0, 0) [ObjScale (1, 1, 0.8)] "bone" None).

Definition create_skulls (count : nat) (radius : R) : M (list Obj) :=
  mapM (create_skull radius) (range count).
End Skulls.

(** [hex_vertices(radius, offset)] (lines 172-175). *)
Definition hex_vertex (radius offset : R) (i : nat) : R2 :=
  (cos (offset + INR i * tau / INR NUM_SIDES) * radius,
   sin (offset + INR i * tau / INR NUM_SIDES) * radius).

Definition hex_vertices (radius offset : R) : list R2 :=
  map (hex_vertex radius offset) (range NUM_SIDES).

(** [create_edge_spikes()] (lines 317-333): spike [j] of edge [i]. *)
Definition create_edge_spike (i j : nat) : Obj :=
  let verts := hex_vertices (PLATFORM_RADIUS + 0.05) (PI / 6) in
  let v1 := nth i verts (0, 0) in
  let v2 := nth ((i + 1) mod NUM_SIDES) verts (0, 0) in
  let edge_vec := (fst v2 - fst v1, snd v2 - snd v1) in
  let edge_angle := atan2 (snd edge_vec) (fst edge_vec) in
  let t := (INR j + 0.5) / 4 in
  let x := fst v1 + fst edge_vec * t in
  let y := snd v1 + snd edge_vec * t in
  mkObj (Cone 6 0.12 0 0.35) (NFixed "Cone") (x, y, 0.18) (0, 0, edge_angle) []
        "obsidian" None.

Definition create_edge_spikes : list Obj :=
  concat (map (fun i => map (create_edge_spike i) (range 4)) (range NUM_SIDES)).

Definition PILLAR_HEIGHT : R := 2.5.

(** [create_pillar(loc)] (lines 240-315): body, base, cap, crystal, its
    light, brazier bowl, three fire spheres, fire light.  The bmesh loop
    of the crystal scales the z of every vertex by 1.6. *)
Definition create_pillar (loc : R2) : list Part :=
  let '(x, y) := loc in
  let cap_z := PILLAR_HEIGHT + 0.06 in
  let brazier_z := cap_z + 0.1 in
  [PObj (mkObj (Cylinder 12 0.32 PILLAR_HEIGHT) (NFixed "Cylinder")
               (x, y, PILLAR_HEIGHT / 2) (0, 0, 0) [BmTaper] "obsidian" None);
   PObj (mkObj (Cylinder 12 0.48 0.18) (NFixed "Cylinder")
               (x, y, 0.09) (0, 0, 0) [] "obsidian" None);
   PObj (mkObj (Cylinder 12 0.26 0.12) (NFixed "Cylinder")
               (x, y, cap_z) (0, 0, 0) [] "obsidian" None);
   PObj (mkObj (IcoSphere 2 0.18) (NFixed "Icosphere")
               (x, y, PILLAR_HEIGHT + 0.45) (0, 0, 0) [ApplyScale (1, 1, 1.6)]
               "crystal" None);
   PLight (x, y, PILLAR_HEIGHT + 0.45) 0.5 25 (0.6, 0.2, 0.9);
   PObj (mkObj (Cylinder 16 0.22 0.08) (NFixed "Cylinder")
               (x, y, brazier_z) (0, 0, 0) [] "metal" None)] ++
  map (fun hs : R * R => let '(h, s) := hs in
         PObj (mkObj (UVSphere default_uv_segments default_uv_ring_count s)
                     (NFixed "Sphere") (x, y, brazier_z + h) (0, 0, 0) []
                     "fire" None))
      (combine [0.02; 0.12; 0.2] [0.12; 0.1; 0.08]) ++
  [PLight (x, y, brazier_z + 0.15) 0.4 80 (1.0, 0.5, 0.2)].

(** [create_demon_horns()] (lines 418-432). *)
Definition create_demon_horn (i : nat) : Obj :=
  let radius := 1.1 in
  let z := 0.6 in
  let ang := INR i * tau / 6 + PI / 6 in
  mkObj (Cone 8 0.1 0.0 0.45) (NFixed "Cone")
        (cos ang * radius, sin ang * radius, z) (-0.5, 0, ang + PI) []
        "metal" None.

Definition create_demon_horns : list Obj := map create_demon_horn (range 6).

(** [create_central_altar()] (lines 434-470). *)
Definition create_central_altar : list Part :=
  [PObj (mkObj (Cylinder 6 1.3 0.25) (NFixed "Cylinder") (0, 0, 0.125)
               (0, 0, PI / 6) [] "obsidian" None);
   PObj (mkObj (Cylinder 6 0.9 0.2) (NFixed "Cylinder") (0, 0, 0.35)
               (0, 0, PI / 6) [] "obsidian" None);
   PObj (mkObj (Cylinder 6 0.55 0.14) (NFixed "Cylinder") (0, 0, 0.54)
               (0, 0, PI / 6) [] "stone" None);
   PObj (mkObj (Cylinder default_cylinder_vertices 0.16 1.2) (NFixed "Cylinder")
               (0, 0, 1.14) (0, 0, 0) [] "fire" None);
   PObj (mkObj (UVSphere default_uv_segments default_uv_ring_count 0.22)
               (NFixed "Sphere") (0, 0, 1.8) (0, 0, 0) [] "ritual" None);
   PLight (0, 0, 1.5) 1.0 120 (1.0, 0.3, 0.1)].

End V3.

(* ------------------------------------------------------------------ *)
(** ** boss_platform.py: the ring carver and the central altar *)

Module V1Scene.

(** [create_ritual_ring(radius_inner, radius_outer, height, segments)]
    (lines 204-236). *)
Definition create_ritual_ring (radius_inner radius_outer height : R)
  (segments : nat) : Scene.CM nat :=
  Scene.carve_with (Cylinder segments radius_outer height)
                   (Cylinder segments radius_inner (height + 0.1))
                   (0, 0, height / 2) (0, 0, 0).

(** [create_central_altar()] (lines 354-419). *)
Definition create_central_altar : list Part :=
  [PObj (mkObj (Cylinder 8 1.5 0.3) (NFixed "Altar_Base") (0, 0, 0.15)
               (0, 0, 0) [] "obsidian" None);
   PObj (mkObj (Cylinder 8 1.0 0.25) (NFixed "Altar_Mid") (0, 0, 0.425)
               (0, 0, 0) [] "obsidian" None);
   PObj (mkObj (Cylinder 8 0.6 0.15) (NFixed "Altar_Top") (0, 0, 0.625)
               (0, 0, 0) [] "stone" None);
   PObj (mkObj (UVSphere 32 16 0.25) (NFixed "Power_Orb") (0, 0, 0.95)
               (0, 0, 0) [] "ritual" None);
   PLight (0, 0, 0.95) 1.0 100 (0.9, 0.1, 0.05)].

Definition PLATFORM_SIZE : R := 14.0.
Definition PLATFORM_HEIGHT : R := 0.6.
Definition PILLAR_HEIGHT : R := 2.5.
Definition PILLAR_RADIUS : R := 6.5.

(** [create_hexagonal_floor()] (lines 181-202). *)
Definition create_hexagonal_floor : Obj :=
  mkObj (Cylinder 6 (PLATFORM_SIZE / 2 + 0.5) PLATFORM_HEIGHT)
        (NFixed "Boss_Floor_Base") (0, 0, - PLATFORM_HEIGHT / 2) (0, 0, 0)
        [Bevel 0.1 3] "stone" None.

(** [create_corner_pillar(location, rotation=0)] (lines 263-352): the
    body carries the taper [V1.taper]; the crystal's vertex loop stretches
    [z] by 1.5 and jitters [x]; [rotation] is not read. *)
Definition create_corner_pillar (location : R3) (rotation : R) : list Part :=
  let '(x, y, _) := location in
  [PObj (mkObj (Cylinder 8 0.4 PILLAR_HEIGHT) (NFixed "Pillar_Body")
               (x, y, PILLAR_HEIGHT / 2) (0, 0, 0) [BmTaper] "obsidian" None);
   PObj (mkObj (Cylinder 8 0.55 0.2) (NFixed "Pillar_Base")
               (x, y, 0.1) (0, 0, 0) [] "obsidian" None);
   PObj (mkObj (Cylinder 8 0.35 0.15) (NFixed "Pillar_Cap")
               (x, y, PILLAR_HEIGHT + 0.075) (0, 0, 0) [] "obsidian" None);
   PObj (mkObj (IcoSphere 2 0.2) (NFixed "Floating_Crystal")
               (x, y, PILLAR_HEIGHT + 0.6) (0, 0, 0)
               [ApplyScale (1, 1, 1.5); BmJitterX 0.05 10] "crystal" None);
   PLight (x, y, PILLAR_HEIGHT + 0.6) 0.5 50 (0.6, 0.2, 0.9)].

(** The corner pillar loop of the build section (lines 498-504). *)
Definition corner_pillar_angle (i : nat) : R := INR i / 4 * PI * 2 + PI / 4.

Definition corner_pillars : list Part :=
  concat (map (fun i =>
    let angle := corner_pillar_angle i in
    create_corner_pillar (cos angle * PILLAR_RADIUS, sin angle * PILLAR_RADIUS, 0)
                         angle) (range 4)).

(** [create_edge_decorations()] (lines 454-479). *)
Definition edge_decoration (i : nat) : Obj :=
  let angle := INR i / 24 * PI * 2 in
  let radius := PLATFORM_SIZE / 2 + 0.2 in
  mkObj (Cone 4 0.15 0 0.4) (NIdx "Edge_Spike_" [i])
        (cos angle * radius, sin angle * radius, 0.2) (0, 0, angle) []
        "obsidian" None.

Definition create_edge_decorations : list Obj := map edge_decoration (range 24).

End V1Scene.

(* ------------------------------------------------------------------ *)
(** ** The formulas of the design, for comparison with the code *)

Module Spec.

(** [lerp(a, b, t)] *)
Definition lerp (a b t : R) : R := a + (b - a) * t.

(** [taperAlongAxis] along z: vertices above the base get their x and y
    scaled by [lerp(startScale, endScale, z / totalHeight)]. *)
Definition taperAlongAxis (startScale endScale totalHeight : R)
  (verts : list R3) : list R3 :=
  map (fun v => let '(x, y, z) := v in
        if Rlt_dec 0 z then
          let s := lerp startScale endScale (z / totalHeight) in
          (x * s, y * s, z)
        else (x, y, z)) verts.

(** [B(t) = (1-t)^2 P0 + 2(1-t)t P1 + t^2 P2] *)
Definition bezier (P0 P1 P2 : R3) (t : R) : R3 :=
  let '(x0, y0, z0) := P0 in
  let '(x1, y1, z1) := P1 in
  let '(x2, y2, z2) := P2 in
  ((1 - t) ^ 2 * x0 + 2 * (1 - t) * t * x1 + t ^ 2 * x2,
   (1 - t) ^ 2 * y0 + 2 * (1 - t) * t * y1 + t ^ 2 * y2,
   (1 - t) ^ 2 * z0 + 2 * (1 - t) * t * z1 + t ^ 2 * z2).

(** The point at fraction [t] of the edge from [v1] to [v2]. *)
Definition edge_point (v1 v2 : R2) (t : R) : R2 :=
  (fst v1 + (fst v2 - fst v1) * t, snd v1 + (snd v2 - snd v1) * t).

(** The fraction [(j + 0.5) / spikesPerEdge] of spike [j]. *)
Definition spike_fraction (j spikesPerEdge : nat) : R :=
  (INR j + 0.5) / INR spikesPerEdge.

(** Planar distance of a point from the origin. *)
Definition norm2 (p : R2) : R := sqrt (fst p * fst p + snd p * snd p).

(** Midpoint of a segment. *)
Definition midpoint (p q : R3) : R3 :=
  let '(x1, y1, z1) := p in
  let '(x2, y2, z2) := q in
  ((x1 + x2) / 2, (y1 + y2) / 2, (z1 + z2) / 2).

(** [atan2(dy, dx)] of a segment: its heading about the vertical axis. *)
Definition heading (p q : R3) : R :=
  let '(x1, y1, _) := p in
  let '(x2, y2, _) := q in
  atan2 (y2 - y1) (x2 - x1).

(** Area-uniform radial draw in a disk of radius [R]: [R * sqrt(u)]. *)
Definition disk_radius (Rd u : R) : R := Rd * sqrt u.

(** Planar position of an object. *)
Definition planar (p : R3) : R2 := let '(x, y, _) := p in (x, y).

End Spec.

(* ================================================================== *)
(** * Properties *)

(* ------------------------------------------------------------------ *)
(** ** The canonical V5 run *)

Section V5Run.
Import Host V5.

(** C1: the canonical V5 run (platform radius 7.0, ring radii 5.5, 3.5,
    1.8, pillar height 3.0, six pillars, seed 42) builds one floor mesh,
    three ring meshes, six pillar composites of at least five meshes each,
    an altar of at least five meshes, 18 edge spikes, 8 skulls and 6 horns,
    whatever the random stream and the scene it starts from; with the root
    empty the scene then holds exactly 78 objects. *)
Theorem v5_run_object_counts : forall (mt : Z -> nat -> R) (st0 : St),
  let '(out, st) := run mt st0 in
  PLATFORM_RADIUS = 7.0 /\ PILLAR_HEIGHT = 3.0 /\
  is_mesh (b_floor out) = true /\
  map o_prim (b_rings out) =
    [Torus 5.5 0.1 48 12; Torus 3.5 0.08 48 12; Torus 1.8 0.06 48 12] /\
  List.length (b_pillars out) = 6%nat /\
  Forall (fun g => 5 <= count_mesh g)%nat (b_pillars out) /\
  (5 <= count_mesh (b_altar out))%nat /\
  List.length (b_spikes out) = 18%nat /\ count_mesh (b_spikes out) = 18%nat /\
  List.length (b_skulls out) = 8%nat /\ count_mesh (b_skulls out) = 8%nat /\
  List.length (b_horns out) = 6%nat /\ count_mesh (b_horns out) = 6%nat /\
  List.length (st_objs st) = 78%nat.
Proof.
  intros mt st0.
  vm_compute.
  repeat split; try lia.
  repeat (apply Forall_cons; [lia |]).
  apply Forall_nil.
Qed.

(** C2: two runs of the V5 script produce the same scene and the same
    results, whatever scene and random state each run starts from:
    [random.seed(42)] and [cleanup()] reset everything the build reads. *)
Theorem v5_run_deterministic : forall (mt : Z -> nat -> R) (st1 st2 : St),
  run mt st1 = run mt st2.
Proof.
  intros mt st1 st2.
  unfold run, bind, seed, cleanup.
  reflexivity.
Qed.

End V5Run.

(* ------------------------------------------------------------------ *)
(** ** The pillar taper *)

(** C9: the taper of the pillar shafts (V5: from 1 to 0.85; first
    revision: from 1 to 0.7) keeps every vertex in place except the x and
    y of vertices with z > 0, which are multiplied by
    [lerp(startScale, endScale, z / PILLAR_HEIGHT)]; z never changes. *)
Theorem taper_frame : forall (verts : list R3) (k : nat) (x y z : R),
  nth_error verts k = Some (x, y, z) ->
  nth_error (V5.taper verts) k =
    Some (if Rlt_dec 0 z
          then (x * Spec.lerp 1 0.85 (z / V5.PILLAR_HEIGHT),
                y * Spec.lerp 1 0.85 (z / V5.PILLAR_HEIGHT), z)
          else (x, y, z)) /\
  nth_error (V1.taper verts) k =
    Some (if Rlt_dec 0 z
          then (x * Spec.lerp 1 0.7 (z / V1.PILLAR_HEIGHT),
                y * Spec.lerp 1 0.7 (z / V1.PILLAR_HEIGHT), z)
          else (x, y, z)) /\
  List.length (V5.taper verts) = List.length verts /\
  List.length (V1.taper verts) = List.length verts.
Proof.
  intros verts k x y z H.
  unfold V5.taper, V1.taper.
  rewrite !nth_error_map, H, !length_map.
  simpl.
  unfold Spec.lerp, V5.PILLAR_HEIGHT, V1.PILLAR_HEIGHT.
  destruct (Rlt_dec 0 z); repeat split.
  - replace (1 + (0.85 - 1) * (z / 3.0)) with (1.0 - 0.15 * (z / 3.0))
      by lra.
    reflexivity.
  - replace (1 + (0.7 - 1) * (z / 2.5)) with (1.0 - z / 2.5 * 0.3) by lra.
    reflexivity.
Qed.

Lemma taper_frame_witness :
  nth_error [(1, 1, 3); (1, 1, -1)] 0 = Some (1, 1, 3) /\
  nth_error (V5.taper [(1, 1, 3); (1, 1, -1)]) 0 =
    Some (if Rlt_dec 0 3
          then (1 * Spec.lerp 1 0.85 (3 / V5.PILLAR_HEIGHT),
                1 * Spec.lerp 1 0.85 (3 / V5.PILLAR_HEIGHT), 3)
          else (1, 1, 3)).
Proof.
  split; [reflexivity |].
  apply (taper_frame [(1, 1, 3); (1, 1, -1)] 0 1 1 3).
  reflexivity.
Defined.

(* ------------------------------------------------------------------ *)
(** ** Ring carving *)

Section Carving.
Import Scene.

(** Identifiers in use are below the next fresh one. *)
Definition wf (s : CSt) : Prop :=
  Forall (fun p => (fst p < c_next s)%nat) (c_objs s).

Lemma find_ids_below : forall (l : list (nat * Solid)) n m,
  Forall (fun p => (fst p < n)%nat) l -> (n <= m)%nat ->
  find (fun p => Nat.eqb (fst p) m) l = None.
Proof.
  induction l as [| p l IH]; intros n m Hl Hm; simpl; [reflexivity |].
  inversion Hl; subst.
  destruct (Nat.eqb_spec (fst p) m); [lia |].
  eapply IH; eauto.
Qed.

Lemma find_app_none : forall {A} (f : A -> bool) (l1 l2 : list A),
  find f l1 = None -> find f (l1 ++ l2) = find f l2.
Proof.
  induction l1 as [| a l1 IH]; intros l2 H; simpl in *; [reflexivity |].
  destruct (f a); [discriminate | auto].
Qed.

Lemma map_ids_below : forall (l : list (nat * Solid)) n f,
  Forall (fun p => (fst p < n)%nat) l ->
  map (fun p => if Nat.eqb (fst p) n then f p else p) l = l.
Proof.
  induction l as [| p l IH]; intros n f Hl; simpl; [reflexivity |].
  inversion Hl; subst.
  destruct (Nat.eqb_spec (fst p) n); [lia |].
  f_equal; auto.
Qed.

Lemma filter_ids_below : forall (l : list (nat * Solid)) n m,
  Forall (fun p => (fst p < n)%nat) l -> (n <= m)%nat ->
  filter (fun p => negb (Nat.eqb (fst p) m)) l = l.
Proof.
  induction l as [| p l IH]; intros n m Hl Hm; simpl; [reflexivity |].
  inversion Hl; subst.
  destruct (Nat.eqb_spec (fst p) m); [lia |].
  simpl; f_equal; eauto.
Qed.

(** What one carving does to a scene: the outer cylinder stays, with the
    inner cylinder's shape subtracted, the inner one is gone, and the host
    receives the four calls in this order. *)
Lemma carve_with_effect : forall outer_p inner_p loc rot s,
  wf s ->
  carve_with outer_p inner_p loc rot s =
  (c_next s,
   mkCSt (c_objs s ++
            [(c_next s, mkSolid (cyl outer_p loc rot) [(inner_p, loc, rot)])])
         (S (S (c_next s)))
         (c_log s ++ [CallAdd outer_p loc rot; CallAdd inner_p loc rot;
                      CallBoolDifference (c_next s) (S (c_next s));
                      CallRemove (S (c_next s))])).
Proof.
  intros outer_p inner_p loc rot [objs n log] Hwf.
  unfold wf in Hwf; simpl in Hwf.
  unfold carve_with, cbind, cret, add, bool_difference, remove, lookup.
  simpl.
  rewrite <- app_assoc; simpl.
  assert (E1 : (n =? S n) = false) by (apply Nat.eqb_neq; lia).
  assert (E2 : (S n =? n) = false) by (apply Nat.eqb_neq; lia).
  rewrite find_app_none by (apply (find_ids_below objs n (S n)); auto).
  rewrite map_app, (map_ids_below objs n) by assumption.
  rewrite filter_app, (filter_ids_below objs n (S n)) by (auto || lia).
  repeat progress (cbn -[Nat.eqb]; rewrite ?E1, ?E2, ?Nat.eqb_refl).
  rewrite <- !app_assoc.
  reflexivity.
Qed.

(** A ring builder that carves an annulus of outer radius [outer_r] and
    inner radius [inner_r], of height [h], from [sides]-gons, with an inner
    operand [eps] deeper than the outer one. *)
Definition carves (ring : CM nat) (sides : nat) (outer_r inner_r h eps : R)
  (rot : R3) : Prop :=
  forall s, wf s ->
  let outer_p := Cylinder sides outer_r h in
  let inner_p := Cylinder sides inner_r (h + eps) in
  let loc := (0, 0, h / 2) in
  let '(id, s') := ring s in
  0 < eps /\
  c_log s' = c_log s ++ [CallAdd outer_p loc rot; CallAdd inner_p loc rot;
                         CallBoolDifference id (S id); CallRemove (S id)] /\
  c_objs s' = c_objs s ++ [(id, mkSolid (cyl outer_p loc rot)
                                        [(inner_p, loc, rot)])] /\
  lookup (S id) (c_objs s') = None /\
  cap_bottom inner_p loc < cap_bottom outer_p loc /\
  cap_top outer_p loc < cap_top inner_p loc.

Lemma carve_with_carves : forall sides outer_r inner_r h eps rot,
  0 < eps ->
  carves (carve_with (Cylinder sides outer_r h) (Cylinder sides inner_r (h + eps))
                     (0, 0, h / 2) rot) sides outer_r inner_r h eps rot.
Proof.
  intros sides outer_r inner_r h eps rot Heps s Hwf.
  cbv zeta.
  rewrite carve_with_effect by assumption.
  cbn [c_objs c_log c_next].
  split; [assumption |].
  split; [reflexivity |].
  split; [reflexivity |].
  split.
  - unfold lookup.
    rewrite find_app_none
      by (apply (find_ids_below (c_objs s) (c_next s)); auto).
    simpl.
    destruct (Nat.eqb_spec (c_next s) (S (c_next s))); [lia | reflexivity].
  - unfold cap_bottom, cap_top, cyl_depth.
    split; lra.
Qed.

End Carving.

(** C6: each ring carver (V3 [create_hex_ring], V4 [hex_ring], and the
    circular [create_circle_ring] / [circle_ring] of both, called with
    [r_inner = r_outer - thickness]) creates the outer cylinder of radius
    [outerRadius] and depth [height], then the inner one of radius
    [outerRadius - thickness] and depth [height + eps] with [eps > 0] on
    the same centre, so that it reaches past both caps of the outer one,
    applies the boolean difference outer minus inner, and removes the
    inner object from the scene. *)
Theorem ring_carving : forall radius thickness height : R,
  carves (V3.create_hex_ring radius thickness height) 6
    radius (radius - thickness) height 0.1 (0, 0, PI / 6) /\
  carves (V4.hex_ring radius thickness height) 6
    radius (radius - thickness) height 0.08 (0, 0, PI / 6) /\
  carves (V3.create_circle_ring (radius - thickness) radius height)
    default_cylinder_vertices radius (radius - thickness) height 0.05 (0, 0, 0) /\
  carves (V4.circle_ring (radius - thickness) radius height)
    default_cylinder_vertices radius (radius - thickness) height 0.05 (0, 0, 0).
Proof.
  intros radius thickness height.
  refine (conj _ (conj _ (conj _ _))).
  - exact (carve_with_carves 6 radius (radius - thickness) height 0.1
             (0, 0, PI / 6) ltac:(lra)).
  - exact (carve_with_carves 6 radius (radius - thickness) height 0.08
             (0, 0, PI / 6) ltac:(lra)).
  - exact (carve_with_carves default_cylinder_vertices radius
             (radius - thickness) height 0.05 (0, 0, 0) ltac:(lra)).
  - exact (carve_with_carves default_cylinder_vertices radius
             (radius - thickness) height 0.05 (0, 0, 0) ltac:(lra)).
Qed.

Lemma ring_carving_witness :
  wf (Scene.mkCSt [] 0 []) /\
  carves (V3.create_hex_ring 6 0.4 0.025) 6 6 (6 - 0.4) 0.025 0.1
    (0, 0, PI / 6).
Proof.
  split; [apply Forall_nil |].
  exact (proj1 (ring_carving 6 0.4 0.025)).
Defined.

(* ------------------------------------------------------------------ *)
(** ** Radial layout: the pillar anchors *)

Lemma hex_cs_0 : cos (INR 0 * PI / 3) = 1 /\ sin (INR 0 * PI / 3) = 0.
Proof.
  replace (INR 0 * PI / 3) with 0 by (simpl; lra).
  split; [apply cos_0 | apply sin_0].
Qed.

Lemma hex_cs_1 : cos (INR 1 * PI / 3) = 1 / 2 /\
                 sin (INR 1 * PI / 3) = sqrt 3 / 2.
Proof.
  replace (INR 1 * PI / 3) with (PI / 3) by (simpl; lra).
  split; [apply cos_PI3 | apply sin_PI3].
Qed.

Lemma hex_cs_2 : cos (INR 2 * PI / 3) = -1 / 2 /\
                 sin (INR 2 * PI / 3) = sqrt 3 / 2.
Proof.
  replace (INR 2 * PI / 3) with (2 * (PI / 3)) by (simpl; lra).
  split; [apply cos_2PI3 | apply sin_2PI3].
Qed.

Lemma hex_cs_3 : cos (INR 3 * PI / 3) = -1 /\ sin (INR 3 * PI / 3) = 0.
Proof.
  replace (INR 3 * PI / 3) with PI by (simpl; lra).
  split; [apply cos_PI | apply sin_PI].
Qed.

Lemma hex_cs_4 : cos (INR 4 * PI / 3) = - (1 / 2) /\
                 sin (INR 4 * PI / 3) = - (sqrt 3 / 2).
Proof.
  replace (INR 4 * PI / 3) with (PI / 3 + PI) by (simpl; lra).
  rewrite neg_cos, neg_sin, cos_PI3, sin_PI3.
  split; reflexivity.
Qed.

Lemma hex_cs_5 : cos (INR 5 * PI / 3) = 1 / 2 /\
                 sin (INR 5 * PI / 3) = - (sqrt 3 / 2).
Proof.
  replace (INR 5 * PI / 3) with (2 * (PI / 3) + PI) by (simpl; lra).
  rewrite neg_cos, neg_sin, cos_2PI3, sin_2PI3.
  split; [lra | reflexivity].
Qed.

Ltac hex_trig :=
  rewrite ?(proj1 hex_cs_0), ?(proj2 hex_cs_0), ?(proj1 hex_cs_1),
    ?(proj2 hex_cs_1), ?(proj1 hex_cs_2), ?(proj2 hex_cs_2),
    ?(proj1 hex_cs_3), ?(proj2 hex_cs_3), ?(proj1 hex_cs_4),
    ?(proj2 hex_cs_4), ?(proj1 hex_cs_5), ?(proj2 hex_cs_5).

Ltac split_eqs :=
  repeat match goal with
  | |- (_ :: _) = (_ :: _) => f_equal
  | |- (_, _) = (_, _) => f_equal
  end.

(** The six points of the claim, for an anchor radius [r]. *)
Definition hex_anchor_table (r : R) : list R2 :=
  [(r, 0); (r / 2, r * sqrt 3 / 2); (- r / 2, r * sqrt 3 / 2); (- r, 0);
   (- r / 2, - r * sqrt 3 / 2); (r / 2, - r * sqrt 3 / 2)].

Lemma norm2_polar : forall r a, 0 <= r ->
  Spec.norm2 (r * cos a, r * sin a) = r.
Proof.
  intros r a Hr.
  unfold Spec.norm2; simpl.
  replace (r * cos a * (r * cos a) + r * sin a * (r * sin a))
    with (r * r * (Rsqr (sin a) + Rsqr (cos a))) by (unfold Rsqr; ring).
  rewrite sin2_cos2, Rmult_1_r.
  apply sqrt_square; assumption.
Qed.

(** C8: the six pillar anchors, at angles [i * pi / 3] (V5 directly; V3
    as [pi/6 + i*pi/3 - pi/6]), are in this order (r,0), (r/2, r√3/2),
    (−r/2, r√3/2), (−r,0), (−r/2, −r√3/2), (r/2, −r√3/2), where r is the
    anchor radius of the script (V5: [PLATFORM_RADIUS - 0.7]; V3:
    [PILLAR_RADIUS_POS]), and each lies at distance r from the origin. *)
Theorem pillar_anchor_points :
  map V5.pillar_anchor (range 6) =
    hex_anchor_table (V5.PLATFORM_RADIUS - 0.7) /\
  Forall (fun p => Spec.norm2 p = V5.PLATFORM_RADIUS - 0.7)
    (map V5.pillar_anchor (range 6)) /\
  V3.pillar_positions = hex_anchor_table V3.PILLAR_RADIUS_POS /\
  Forall (fun p => Spec.norm2 p = V3.PILLAR_RADIUS_POS) V3.pillar_positions.
Proof.
  assert (E5 : map V5.pillar_anchor (range 6) =
               map (fun i => ((V5.PLATFORM_RADIUS - 0.7) * cos (INR i * PI / 3),
                              (V5.PLATFORM_RADIUS - 0.7) * sin (INR i * PI / 3)))
                   (range 6)) by reflexivity.
  assert (E3 : V3.pillar_positions =
               map (fun i => (V3.PILLAR_RADIUS_POS * cos (INR i * PI / 3),
                              V3.PILLAR_RADIUS_POS * sin (INR i * PI / 3)))
                   (range 6)).
  { unfold V3.pillar_positions, V3.pillar_position, V3.NUM_SIDES.
    apply map_ext; intro i.
    replace (PI / 6 + INR i * PI / 3 - PI / 6) with (INR i * PI / 3) by ring.
    f_equal; ring. }
  rewrite E5, E3.
  assert (P5 : 0 <= V5.PLATFORM_RADIUS - 0.7)
    by (unfold V5.PLATFORM_RADIUS; lra).
  assert (P3 : 0 <= V3.PILLAR_RADIUS_POS)
    by (unfold V3.PILLAR_RADIUS_POS, V3.PLATFORM_RADIUS, V3.PLATFORM_SIZE; lra).
  split; [| split; [| split]].
  - cbn [map range seq]; unfold hex_anchor_table.
    split_eqs; hex_trig; lra.
  - apply Forall_forall; intros p Hp.
    apply in_map_iff in Hp as (i & <- & _).
    apply norm2_polar; assumption.
  - cbn [map range seq]; unfold hex_anchor_table.
    split_eqs; hex_trig; lra.
  - apply Forall_forall; intros p Hp.
    apply in_map_iff in Hp as (i & <- & _).
    apply norm2_polar; assumption.
Qed.

(* ------------------------------------------------------------------ *)
(** ** Edge spikes *)

(** A point at fraction [t] of a chord between two points of the circle
    of radius [R] seen under an angle whose cosine is 1/2. *)
Lemma chord_norm_sq : forall Rr a1 a2 t,
  cos (a1 - a2) = 1 / 2 ->
  let x := Rr * cos a1 + (Rr * cos a2 - Rr * cos a1) * t in
  let y := Rr * sin a1 + (Rr * sin a2 - Rr * sin a1) * t in
  x * x + y * y = Rr * Rr * (1 - t + t * t).
Proof.
  intros Rr a1 a2 t Hc x y.
  rewrite cos_minus in Hc.
  pose proof (sin2_cos2 a1) as H1.
  pose proof (sin2_cos2 a2) as H2.
  unfold Rsqr in H1, H2.
  subst x y.
  transitivity (Rr * Rr *
    ((1 - t) * (1 - t) * (sin a1 * sin a1 + cos a1 * cos a1)
     + t * t * (sin a2 * sin a2 + cos a2 * cos a2)
     + 2 * t * (1 - t) * (cos a1 * cos a2 + sin a1 * sin a2))); [ring |].
  rewrite H1, H2, Hc.
  field.
Qed.

(** For [0 < t < 1] the chord point is strictly inside the circle and at
    least [R * sqrt 3 / 2] away from the centre. *)
Lemma chord_norm_bounds : forall Rr t,
  0 < Rr -> 0 < t < 1 ->
  Rr * Rr * 3 / 4 <= Rr * Rr * (1 - t + t * t) < Rr * Rr.
Proof.
  intros Rr t HR Ht.
  assert (Hr2 : 0 < Rr * Rr) by (apply Rmult_lt_0_compat; assumption).
  split.
  - assert (0 <= Rr * Rr * ((t - 1 / 2) * (t - 1 / 2)))
      by (apply Rmult_le_pos; [lra | apply Rle_0_sqr]).
    lra.
  - assert (0 < Rr * Rr * (t * (1 - t)))
      by (apply Rmult_lt_0_compat; [lra | apply Rmult_lt_0_compat; lra]).
    lra.
Qed.

Lemma sqrt_lt_sq : forall a b, 0 <= a -> 0 <= b -> a < b * b -> sqrt a < b.
Proof.
  intros a b Ha Hb Hab.
  rewrite <- (sqrt_square b Hb).
  apply sqrt_lt_1; nra.
Qed.

(** [pull_inward] moves a point at distance [d > 0.3] by exactly 0.3
    towards the origin along its own ray. *)
Lemma pull_inward_spec : forall x y,
  0.3 < Spec.norm2 (x, y) ->
  Spec.norm2 (V5.pull_inward (x, y)) = Spec.norm2 (x, y) - 0.3 /\
  exists k, 0 < k /\ V5.pull_inward (x, y) = (k * x, k * y).
Proof.
  intros x y Hd.
  unfold Spec.norm2 in *; cbn [fst snd] in *.
  set (d := sqrt (x * x + y * y)) in *.
  assert (Hdd : d * d = x * x + y * y)
    by (apply sqrt_sqrt; nra).
  assert (Hk : 0 < (d - 0.3) / d) by (apply Rdiv_lt_0_compat; lra).
  assert (Eq : V5.pull_inward (x, y) = ((d - 0.3) / d * x, (d - 0.3) / d * y)).
  { unfold V5.pull_inward; fold d. f_equal; field; lra. }
  split.
  - rewrite Eq; simpl.
    replace ((d - 0.3) / d * x * ((d - 0.3) / d * x) +
             (d - 0.3) / d * y * ((d - 0.3) / d * y))
      with ((d - 0.3) * (d - 0.3))
      by (rewrite <- ?Rmult_assoc;
          replace ((d - 0.3) * (d - 0.3))
            with ((d - 0.3) / d * ((d - 0.3) / d) * (d * d))
            by (field; lra);
          rewrite Hdd; ring).
    apply sqrt_square; lra.
  - exists ((d - 0.3) / d); split; assumption.
Qed.

Lemma edge_angle_gap : forall edge,
  cos (V5.edge_angle1 edge - V5.edge_angle2 edge) = 1 / 2.
Proof.
  intro edge.
  unfold V5.edge_angle1, V5.edge_angle2.
  rewrite plus_INR; simpl INR.
  replace (PI / 6 + INR edge * PI / 3 - (PI / 6 + (INR edge + 1) * PI / 3))
    with (- (PI / 3)) by field.
  rewrite cos_neg; apply cos_PI3.
Qed.

Lemma v5_spike_t_range : forall i, (i < 3)%nat -> 0 < V5.spike_t i < 1.
Proof.
  intros i Hi; unfold V5.spike_t.
  rewrite plus_INR; simpl INR.
  assert (0 <= INR i) by apply pos_INR.
  assert (INR i < INR 3) by (apply lt_INR; lia).
  simpl INR in *.
  split; lra.
Qed.

(** The planar distance of the V5 interpolated edge point. *)
Lemma v5_edge_point_norm : forall edge i, (i < 3)%nat ->
  let p := V5.spike_edge_point edge i in
  V5.PLATFORM_RADIUS * sqrt 3 / 2 <= Spec.norm2 p /\
  Spec.norm2 p < V5.PLATFORM_RADIUS.
Proof.
  intros edge i Hi p.
  pose proof (v5_spike_t_range i Hi) as Ht.
  pose proof (chord_norm_sq V5.PLATFORM_RADIUS (V5.edge_angle1 edge)
                (V5.edge_angle2 edge) (V5.spike_t i) (edge_angle_gap edge)) as Hn.
  cbv zeta in Hn.
  assert (HR : 0 < V5.PLATFORM_RADIUS) by (unfold V5.PLATFORM_RADIUS; lra).
  pose proof (chord_norm_bounds V5.PLATFORM_RADIUS (V5.spike_t i) HR Ht) as Hb.
  unfold Spec.norm2, p, V5.spike_edge_point; simpl.
  rewrite Hn.
  split.
  - rewrite <- (sqrt_square (V5.PLATFORM_RADIUS * sqrt 3 / 2))
      by (pose proof (sqrt_pos 3); nra).
    apply sqrt_le_1_alt.
    replace (V5.PLATFORM_RADIUS * sqrt 3 / 2 * (V5.PLATFORM_RADIUS * sqrt 3 / 2))
      with (V5.PLATFORM_RADIUS * V5.PLATFORM_RADIUS * (sqrt 3 * sqrt 3) / 4)
      by field.
    rewrite sqrt_sqrt by lra.
    lra.
  - apply sqrt_lt_sq; nra.
Qed.

(** C10: in V5 every spike is its interpolated edge point pulled exactly
    0.3 towards the origin along its ray (its planar distance drops by
    0.3 and it is a positive multiple of the edge point), the created cone
    sits there at height 0.2, and it lies strictly inside the circumradius
    [PLATFORM_RADIUS]. *)
Theorem spike_pull_inward : forall (edge i : nat) (st : Host.St),
  (i < 3)%nat ->
  let p := V5.spike_edge_point edge i in
  let q := V5.spike_position edge i in
  Spec.norm2 q = Spec.norm2 p - 0.3 /\
  (exists k, 0 < k /\ q = (k * fst p, k * snd p)) /\
  o_loc (fst (V5.create_spike edge i st)) = (fst q, snd q, 0.2) /\
  Spec.norm2 q < V5.PLATFORM_RADIUS.
Proof.
  intros edge i st Hi.
  cbv zeta.
  destruct (v5_edge_point_norm edge i Hi) as [Hlo Hhi].
  assert (H3 : 0.3 < Spec.norm2 (V5.spike_edge_point edge i)).
  { assert (1.5 < sqrt 3).
    { rewrite <- (sqrt_square 1.5) by lra.
      apply sqrt_lt_1; lra. }
    unfold V5.PLATFORM_RADIUS in Hlo; nra. }
  unfold V5.create_spike, V5.spike_position.
  destruct (V5.spike_edge_point edge i) as [x y].
  destruct (pull_inward_spec x y H3) as [Hn [k [Hk Hq]]].
  split; [exact Hn |].
  split; [exists k; split; [exact Hk | exact Hq] |].
  split.
  - destruct (V5.pull_inward (x, y)); reflexivity.
  - rewrite Hn; lra.
Qed.

Lemma spike_pull_inward_witness :
  (1 < 3)%nat /\
  Spec.norm2 (V5.spike_position 2 1) =
    Spec.norm2 (V5.spike_edge_point 2 1) - 0.3.
Proof.
  split; [lia |].
  exact (proj1 (spike_pull_inward 2 1 (Host.mkSt [] (Host.mkRng 42 0))
                  ltac:(lia))).
Defined.

Lemma chord_vec : forall x1 y1 x2 y2 r2 t,
  x1 * x1 + y1 * y1 = r2 -> x2 * x2 + y2 * y2 = r2 ->
  x1 * x2 + y1 * y2 = r2 / 2 ->
  (x1 + (x2 - x1) * t) * (x1 + (x2 - x1) * t) +
  (y1 + (y2 - y1) * t) * (y1 + (y2 - y1) * t) = r2 * (1 - t + t * t).
Proof.
  intros x1 y1 x2 y2 r2 t H1 H2 H3.
  transitivity ((1 - t) * (1 - t) * (x1 * x1 + y1 * y1) +
                t * t * (x2 * x2 + y2 * y2) +
                2 * t * (1 - t) * (x1 * x2 + y1 * y2)); [ring |].
  rewrite H1, H2, H3; field.
Qed.

Lemma polar_norm_sq : forall a r,
  cos a * r * (cos a * r) + sin a * r * (sin a * r) = r * r.
Proof.
  intros a r.
  pose proof (sin2_cos2 a) as H; unfold Rsqr in H.
  transitivity (r * r * (sin a * sin a + cos a * cos a)); [ring |].
  rewrite H; ring.
Qed.

Lemma polar_dot : forall a1 a2 r,
  cos a1 * r * (cos a2 * r) + sin a1 * r * (sin a2 * r) =
  r * r * cos (a1 - a2).
Proof. intros a1 a2 r; rewrite cos_minus; ring. Qed.

(** Neighbouring corners of the V4 hexagon, [verts[i]] and
    [verts[(i+1) % 6]], lie on the circle of radius [R] and 60 degrees
    apart. *)
Lemma v4_corner_pair : forall i, (i < 6)%nat ->
  let Rr := V4.PLATFORM_RADIUS + 0.05 in
  let verts := V4.hex_vertices Rr (PI / 6) in
  let v1 := nth i verts (0, 0) in
  let v2 := nth ((i + 1) mod V4.NUM_SIDES) verts (0, 0) in
  fst v1 * fst v1 + snd v1 * snd v1 = Rr * Rr /\
  fst v2 * fst v2 + snd v2 * snd v2 = Rr * Rr /\
  fst v1 * fst v2 + snd v1 * snd v2 = Rr * Rr / 2.
Proof.
  intros i Hi Rr verts v1 v2.
  assert (Gap : forall a1 a2, cos (a1 - a2) = 1 / 2 ->
    cos a1 * Rr * (cos a2 * Rr) + sin a1 * Rr * (sin a2 * Rr) = Rr * Rr / 2).
  { intros a1 a2 Hc; rewrite polar_dot, Hc; field. }
  subst v1 v2 verts.
  unfold V4.hex_vertices, V4.hex_vertex, V4.NUM_SIDES, V4.tau.
  destruct i as [| [| [| [| [| [| i]]]]]]; [| | | | | | lia].
  all: cbn [range seq map nth Nat.add Nat.modulo Nat.divmod fst snd Nat.sub];
    split; [apply polar_norm_sq |];
    split; [apply polar_norm_sq |];
    apply Gap.
  - replace (PI / 6 + INR 0 * (2 * PI) / INR 6 - (PI / 6 + INR 1 * (2 * PI) / INR 6))
      with (- (PI / 3)) by (simpl INR; field).
    rewrite cos_neg; apply cos_PI3.
  - replace (PI / 6 + INR 1 * (2 * PI) / INR 6 - (PI / 6 + INR 2 * (2 * PI) / INR 6))
      with (- (PI / 3)) by (simpl INR; field).
    rewrite cos_neg; apply cos_PI3.
  - replace (PI / 6 + INR 2 * (2 * PI) / INR 6 - (PI / 6 + INR 3 * (2 * PI) / INR 6))
      with (- (PI / 3)) by (simpl INR; field).
    rewrite cos_neg; apply cos_PI3.
  - replace (PI / 6 + INR 3 * (2 * PI) / INR 6 - (PI / 6 + INR 4 * (2 * PI) / INR 6))
      with (- (PI / 3)) by (simpl INR; field).
    rewrite cos_neg; apply cos_PI3.
  - replace (PI / 6 + INR 4 * (2 * PI) / INR 6 - (PI / 6 + INR 5 * (2 * PI) / INR 6))
      with (- (PI / 3)) by (simpl INR; field).
    rewrite cos_neg; apply cos_PI3.
  - replace (PI / 6 + INR 5 * (2 * PI) / INR 6 - (PI / 6 + INR 0 * (2 * PI) / INR 6))
      with (INR 5 * PI / 3) by (simpl INR; field).
    apply hex_cs_5.
Qed.

Lemma v5_corner_pair : forall e,
  let Rr := V5.PLATFORM_RADIUS in
  let v1 := V5.hex_corner e in
  let v2 := V5.hex_corner (e + 1) in
  fst v1 * fst v1 + snd v1 * snd v1 = Rr * Rr /\
  fst v2 * fst v2 + snd v2 * snd v2 = Rr * Rr /\
  fst v1 * fst v2 + snd v1 * snd v2 = Rr * Rr / 2.
Proof.
  intros e Rr v1 v2.
  subst v1 v2; unfold V5.hex_corner; cbn [fst snd].
  rewrite !(Rmult_comm V5.PLATFORM_RADIUS (cos _)),
          !(Rmult_comm V5.PLATFORM_RADIUS (sin _)).
  split; [apply polar_norm_sq |].
  split; [apply polar_norm_sq |].
  rewrite polar_dot.
  change (V5.edge_angle1 (e + 1)) with (V5.edge_angle2 e).
  rewrite edge_angle_gap; unfold Rr; field.
Qed.

Lemma point_off_circle : forall p Rr a, 0 <= Rr -> Spec.norm2 p < Rr ->
  p <> (cos a * Rr, sin a * Rr).
Proof.
  intros p Rr a HR Hn ->.
  unfold Spec.norm2 in Hn; cbn [fst snd] in Hn.
  rewrite polar_norm_sq, sqrt_square in Hn by assumption.
  lra.
Qed.

Lemma edge_point_norm_lt : forall v1 v2 Rr t,
  0 < Rr -> 0 < t < 1 ->
  fst v1 * fst v1 + snd v1 * snd v1 = Rr * Rr ->
  fst v2 * fst v2 + snd v2 * snd v2 = Rr * Rr ->
  fst v1 * fst v2 + snd v1 * snd v2 = Rr * Rr / 2 ->
  Spec.norm2 (Spec.edge_point v1 v2 t) < Rr.
Proof.
  intros [x1 y1] [x2 y2] Rr t HR Ht H1 H2 H3.
  cbn [fst snd] in *.
  unfold Spec.norm2, Spec.edge_point; cbn [fst snd].
  rewrite (chord_vec x1 y1 x2 y2 (Rr * Rr) t H1 H2 H3).
  apply sqrt_lt_sq; [| lra |].
  - pose proof (chord_norm_bounds Rr t HR Ht); lra.
  - pose proof (chord_norm_bounds Rr t HR Ht); lra.
Qed.

(** C4 (as the code has it): spikes interpolate linearly between
    neighbouring hexagon corners at evenly spaced fractions (one quarter
    apart) strictly inside the edge: V4 at [(j + 0.5) / 4] for [j] in
    [range(4)], V5 at [(j + 1) / 4 = (j + 1) / (3 + 1)] for [j] in
    [range(3)].  The interpolated points lie strictly inside the
    circumcircle, so none coincides with a hexagon corner. *)
Theorem edge_spike_fractions :
  (forall i j, (i < 6)%nat -> (j < 4)%nat ->
     let Rr := V4.PLATFORM_RADIUS + 0.05 in
     let verts := V4.hex_vertices Rr (PI / 6) in
     let v1 := nth i verts (0, 0) in
     let v2 := nth ((i + 1) mod V4.NUM_SIDES) verts (0, 0) in
     V4.spike_t j = Spec.spike_fraction j 4 /\
     0 < V4.spike_t j < 1 /\
     V4.spike_t (S j) - V4.spike_t j = 1 / 4 /\
     V4.edge_spike_point i j = Spec.edge_point v1 v2 (V4.spike_t j) /\
     Spec.norm2 (V4.edge_spike_point i j) < Rr /\
     (forall a, V4.edge_spike_point i j <> (cos a * Rr, sin a * Rr))) /\
  (forall e j, (j < 3)%nat ->
     let Rr := V5.PLATFORM_RADIUS in
     V5.spike_t j = INR (j + 1) / INR (3 + 1) /\
     0 < V5.spike_t j < 1 /\
     V5.spike_t (S j) - V5.spike_t j = 1 / 4 /\
     V5.spike_edge_point e j =
       Spec.edge_point (V5.hex_corner e) (V5.hex_corner (e + 1)) (V5.spike_t j) /\
     Spec.norm2 (V5.spike_edge_point e j) < Rr /\
     (forall a, V5.spike_edge_point e j <> (cos a * Rr, sin a * Rr))).
Proof.
  split.
  - intros i j Hi Hj Rr verts v1 v2.
    assert (HR : 0 < Rr)
      by (unfold Rr, V4.PLATFORM_RADIUS, V4.PLATFORM_SIZE; lra).
    assert (Ht : 0 < V4.spike_t j < 1).
    { unfold V4.spike_t.
      assert (0 <= INR j) by apply pos_INR.
      assert (INR j <= INR 3) by (apply le_INR; lia).
      simpl INR in *; split; lra. }
    assert (Ep : V4.edge_spike_point i j = Spec.edge_point v1 v2 (V4.spike_t j))
      by reflexivity.
    destruct (v4_corner_pair i Hi) as (H1 & H2 & H3).
    fold Rr verts v1 v2 in H1, H2, H3.
    assert (Hn : Spec.norm2 (V4.edge_spike_point i j) < Rr)
      by (rewrite Ep; apply edge_point_norm_lt; assumption).
    split; [unfold V4.spike_t, Spec.spike_fraction; simpl INR; f_equal; lra |].
    split; [exact Ht |].
    split; [unfold V4.spike_t; rewrite S_INR; lra |].
    split; [exact Ep |].
    split; [exact Hn |].
    intro a; apply point_off_circle; [lra | exact Hn].
  - intros e j Hj Rr.
    pose proof (v5_spike_t_range j Hj) as Ht.
    assert (HR : 0 < Rr) by (unfold Rr, V5.PLATFORM_RADIUS; lra).
    assert (Ep : V5.spike_edge_point e j =
                 Spec.edge_point (V5.hex_corner e) (V5.hex_corner (e + 1))
                   (V5.spike_t j)) by reflexivity.
    destruct (v5_corner_pair e) as (H1 & H2 & H3).
    assert (Hn : Spec.norm2 (V5.spike_edge_point e j) < Rr)
      by (rewrite Ep; apply edge_point_norm_lt; assumption).
    split; [unfold V5.spike_t; f_equal; simpl INR; lra |].
    split; [exact Ht |].
    split; [unfold V5.spike_t; rewrite !plus_INR, S_INR; simpl INR; lra |].
    split; [exact Ep |].
    split; [exact Hn |].
    intro a; apply point_off_circle; [lra | exact Hn].
Qed.

Lemma edge_spike_fractions_witness :
  V5.spike_t 1 = INR (1 + 1) / INR (3 + 1) /\
  Spec.norm2 (V4.edge_spike_point 5 3) < V4.PLATFORM_RADIUS + 0.05.
Proof.
  split.
  - exact (proj1 (proj2 edge_spike_fractions 0%nat 1%nat ltac:(lia))).
  - exact (proj1 (proj2 (proj2 (proj2 (proj2
      (proj1 edge_spike_fractions 5%nat 3%nat ltac:(lia) ltac:(lia))))))).
Defined.

(** C4 as stated fails for the canonical V5 builder: its first spike on
    edge 0 is not at fraction [(0 + 0.5) / 3] of the edge. *)
Lemma v5_spike_not_at_half_offset :
  V5.spike_edge_point 0 0 <>
  Spec.edge_point (V5.hex_corner 0) (V5.hex_corner 1) (Spec.spike_fraction 0 3).
Proof.
  intro H.
  apply (f_equal snd) in H.
  unfold V5.spike_edge_point, Spec.edge_point, V5.hex_corner,
    Spec.spike_fraction, V5.spike_t, V5.edge_angle1, V5.edge_angle2 in H.
  cbn [fst snd] in H.
  replace (PI / 6 + INR 0 * PI / 3) with (PI / 6) in H by (simpl; field).
  replace (PI / 6 + INR (0 + 1) * PI / 3) with (PI / 2) in H by (simpl; field).
  replace (PI / 6 + INR 1 * PI / 3) with (PI / 2) in H by (simpl; field).
  rewrite sin_PI6, sin_PI2 in H.
  unfold V5.PLATFORM_RADIUS in H.
  simpl INR in H.
  lra.
Qed.

(* ------------------------------------------------------------------ *)
(** ** Bezier chains *)

Lemma v4_bez_is_bezier : forall P0 P1 P2 t,
  V4.bez (P0, P1, P2) t = Spec.bezier P0 P1 P2 t.
Proof.
  intros [[x0 y0] z0] [[x1 y1] z1] [[x2 y2] z2] t.
  unfold V4.bez, Spec.bezier.
  f_equal; [f_equal |]; ring.
Qed.

Lemma nth_error_map_range : forall {A} (f : nat -> A) n j,
  (j < n)%nat -> nth_error (map f (range n)) j = Some (f j).
Proof.
  intros A f n j Hj.
  rewrite nth_error_map.
  rewrite (nth_error_nth' _ 0%nat) by (unfold range; rewrite length_seq; lia).
  unfold range; rewrite seq_nth by lia.
  reflexivity.
Qed.

Lemma length_concat_map_const : forall {A B} (f : A -> list B) k l,
  (forall a, List.length (f a) = k) ->
  List.length (concat (map f l)) = (List.length l * k)%nat.
Proof.
  intros A B f k l Hf; induction l as [| a l IH]; simpl; [reflexivity |].
  rewrite length_app, Hf, IH; reflexivity.
Qed.

(** C3: for control points [P0, P1, P2], a link count [N >= 1] and a tube
    radius, the chain builder of [chains_between] makes exactly [N]
    cylinders; cylinder [j] joins [B(j/N)] and [B((j+1)/N)] of the
    quadratic Bezier [B]: its depth is their Euclidean distance, its
    location their midpoint and its rotation [(pi/2, 0, atan2(dy, dx))].
    [chains_between] itself uses [N = 12] on each of the six sides. *)
Theorem bezier_chain_links : forall P0 P1 P2 (N : nat) (radius : R),
  (1 <= N)%nat ->
  List.length (V4.chain_segments (P0, P1, P2) N radius) = N /\
  (forall j, (j < N)%nat ->
     let b0 := Spec.bezier P0 P1 P2 (INR j / INR N) in
     let b1 := Spec.bezier P0 P1 P2 (INR (j + 1) / INR N) in
     exists o, nth_error (V4.chain_segments (P0, P1, P2) N radius) j = Some o /\
       o_prim o = Cylinder default_cylinder_vertices radius (dist3 b0 b1) /\
       o_loc o = Spec.midpoint b0 b1 /\
       o_rot o = (PI / 2, 0, Spec.heading b0 b1)) /\
  (forall pp, List.length (V4.chains_between pp) = (6 * 12)%nat).
Proof.
  intros P0 P1 P2 N radius HN.
  split; [| split].
  - unfold V4.chain_segments, range; rewrite length_map, length_seq.
    reflexivity.
  - intros j Hj b0 b1.
    exists (V4.chain_link (P0, P1, P2) N radius j).
    split; [apply nth_error_map_range; assumption |].
    unfold V4.chain_link; rewrite !v4_bez_is_bezier.
    subst b0 b1.
    destruct (Spec.bezier P0 P1 P2 (INR j / INR N)) as [[x1 y1] z1].
    destruct (Spec.bezier P0 P1 P2 (INR (j + 1) / INR N)) as [[x2 y2] z2].
    cbn; repeat split; reflexivity.
  - intros pp.
    unfold V4.chains_between.
    rewrite (length_concat_map_const _ 12%nat).
    + reflexivity.
    + intros i; unfold V4.chain_segments, range.
      rewrite length_map, length_seq; reflexivity.
Qed.

Lemma bezier_chain_links_witness :
  (1 <= 12)%nat /\
  List.length (V4.chain_segments ((0, 0, 2.25), (1, 1, 1.95), (2, 0, 2.25))
                 12 0.035) = 12%nat.
Proof.
  split; [lia |].
  exact (proj1 (bezier_chain_links (0, 0, 2.25) (1, 1, 1.95) (2, 0, 2.25)
                  12%nat 0.035 ltac:(lia))).
Defined.

(* ------------------------------------------------------------------ *)
(** ** Skull scatter *)

Section SkullDraws.
Import Host.

(** The planar position of a V3 skull from its two draws. *)
Lemma v3_skull_planar : forall mt Rd i s,
  let g := st_rng s in
  let u1 := mt (rng_seed g) (rng_pos g) in
  let u2 := mt (rng_seed g) (S (rng_pos g)) in
  Spec.planar (o_loc (fst (V3.create_skull mt Rd i s))) =
  (cos (u1 * V3.tau) * Spec.disk_radius Rd u2,
   sin (u1 * V3.tau) * Spec.disk_radius Rd u2).
Proof. intros; reflexivity. Qed.

(** The planar position of a V5 skull from its two draws
    [uniform(0, 2 pi)] and [uniform(2.5, 5.0)]. *)
Lemma v5_skull_planar : forall mt i s,
  let g := st_rng s in
  let u1 := mt (rng_seed g) (rng_pos g) in
  let u2 := mt (rng_seed g) (S (rng_pos g)) in
  Spec.planar (o_loc (fst (V5.create_skull mt i s))) =
  ((2.5 + 2.5 * u2) * cos (2 * PI * u1),
   (2.5 + 2.5 * u2) * sin (2 * PI * u1)).
Proof.
  intros mt i s g u1 u2.
  change (Spec.planar (o_loc (fst (V5.create_skull mt i s)))) with
    ((2.5 + (5.0 - 2.5) * u2) * cos (0 + (2 * PI - 0) * u1),
     (2.5 + (5.0 - 2.5) * u2) * sin (0 + (2 * PI - 0) * u1)).
  replace (0 + (2 * PI - 0) * u1) with (2 * PI * u1) by ring.
  replace (5.0 - 2.5) with 2.5 by lra.
  reflexivity.
Qed.

Lemma v5_skull_distance : forall mt i s,
  0 <= mt (rng_seed (st_rng s)) (S (rng_pos (st_rng s))) ->
  Spec.norm2 (Spec.planar (o_loc (fst (V5.create_skull mt i s)))) =
  2.5 + 2.5 * mt (rng_seed (st_rng s)) (S (rng_pos (st_rng s))).
Proof.
  intros mt i s Hu.
  rewrite v5_skull_planar; apply norm2_polar; lra.
Qed.

Lemma sqrt_scaled_le : forall Rd u rho,
  0 < Rd -> 0 <= u -> 0 <= rho ->
  (Rd * sqrt u <= rho <-> u <= (rho / Rd) ^ 2).
Proof.
  intros Rd u rho HR Hu Hrho.
  pose proof (sqrt_pos u) as Hs.
  pose proof (sqrt_sqrt u Hu) as Hss.
  assert (Hq : 0 <= rho / Rd) by (unfold Rdiv; apply Rmult_le_pos; [lra | left; apply Rinv_0_lt_compat; lra]).
  assert (Hrq : Rd * (rho / Rd) = rho) by (field; lra).
  split; intro H.
  - assert (sqrt u <= rho / Rd) by nra.
    simpl; rewrite Rmult_1_r; nra.
  - simpl in H; rewrite Rmult_1_r in H.
    assert (sqrt u <= rho / Rd) by nra.
    nra.
Qed.

End SkullDraws.

(** C5 (amended): the V3 scatter draws the angle as [random() * tau] and
    the radial distance as [R * sqrt(random())], so a skull lies within
    distance [rho <= R] exactly when its second draw is at most
    [(rho / R)^2], the area fraction of that disk. The canonical V5
    scatter draws the angle as [uniform(0, 2 pi)] and the distance as
    [uniform(2.5, 5.0) = 2.5 + 2.5 u], without a square root: a skull lies
    within [rho] exactly when [u <= (rho - 2.5) / 2.5], linear in [rho]. *)
Theorem skull_scatter_radius : forall mt (Rd : R) (i : nat) (s : Host.St),
  let g := Host.st_rng s in
  let u1 := mt (Host.rng_seed g) (Host.rng_pos g) in
  let u2 := mt (Host.rng_seed g) (S (Host.rng_pos g)) in
  0 < Rd -> 0 <= u2 ->
  let p3 := Spec.planar (o_loc (fst (V3.create_skull mt Rd i s))) in
  let p5 := Spec.planar (o_loc (fst (V5.create_skull mt i s))) in
  p3 = (cos (u1 * V3.tau) * Spec.disk_radius Rd u2,
        sin (u1 * V3.tau) * Spec.disk_radius Rd u2) /\
  Spec.norm2 p3 = Spec.disk_radius Rd u2 /\
  (forall rho, 0 <= rho -> (Spec.norm2 p3 <= rho <-> u2 <= (rho / Rd) ^ 2)) /\
  p5 = ((2.5 + 2.5 * u2) * cos (2 * PI * u1),
        (2.5 + 2.5 * u2) * sin (2 * PI * u1)) /\
  Spec.norm2 p5 = 2.5 + 2.5 * u2 /\
  (forall rho, Spec.norm2 p5 <= rho <-> u2 <= (rho - 2.5) / 2.5).
Proof.
  intros mt Rd i s g u1 u2 HR Hu p3 p5.
  assert (Hn3 : Spec.norm2 p3 = Spec.disk_radius Rd u2).
  { subst p3; rewrite v3_skull_planar; fold g u1 u2.
    rewrite (Rmult_comm (cos _)), (Rmult_comm (sin _)).
    apply norm2_polar.
    unfold Spec.disk_radius; apply Rmult_le_pos; [lra | apply sqrt_pos]. }
  assert (Hn5 : Spec.norm2 p5 = 2.5 + 2.5 * u2)
    by (subst p5; apply v5_skull_distance; assumption).
  split; [apply v3_skull_planar |].
  split; [exact Hn3 |].
  split; [intros rho Hrho; rewrite Hn3; apply sqrt_scaled_le; assumption |].
  split; [apply v5_skull_planar |].
  split; [exact Hn5 |].
  intros rho; rewrite Hn5; split; intro H; lra.
Qed.

Lemma skull_scatter_radius_witness :
  0 < 4.5 /\ 0 <= 1 / 4 /\
  Spec.norm2 (Spec.planar (o_loc (fst (V3.create_skull (fun _ _ => 1 / 4) 4.5 0
                (Host.mkSt [] (Host.mkRng 42 0)))))) =
  Spec.disk_radius 4.5 (1 / 4).
Proof.
  split; [lra |]. split; [lra |].
  exact (proj1 (proj2 (skull_scatter_radius (fun _ _ => 1 / 4) 4.5 0%nat
                         (Host.mkSt [] (Host.mkRng 42 0))
                         ltac:(lra) ltac:(simpl; lra)))).
Defined.

(** C5 as stated fails for the canonical V5 scatter: whatever disk
    radius [R], its first skull is not at distance [R * sqrt(u)] for every
    draw [u] in [0, 1): at [u = 0] it lies at distance 2.5, not 0. *)
Lemma v5_skull_not_sqrt_radius :
  ~ exists Rd, forall u, 0 <= u < 1 ->
    Spec.norm2 (Spec.planar (o_loc (fst (V5.create_skull (fun _ _ => u) 0
                  (Host.mkSt [] (Host.mkRng 42 0)))))) =
    Spec.disk_radius Rd u.
Proof.
  intros [Rd H].
  specialize (H 0 ltac:(lra)).
  rewrite v5_skull_distance in H by (simpl; lra).
  unfold Spec.disk_radius in H; rewrite sqrt_0 in H.
  simpl in H; lra.
Qed.

(* ------------------------------------------------------------------ *)
(** ** Ring parameters *)

Section RingParameters.
Import Scene.

(** C7 (amended): the ring carvers check none of their parameters. For
    every radius, thickness (positive, zero or negative) and height they
    return the new object and issue the same four host calls: the outer
    cylinder, the inner one of radius [radius - thickness], the boolean
    difference and the removal of the inner operand. *)
Theorem ring_carver_no_parameter_check :
  forall (radius thickness height : R) (s : CSt), wf s ->
  let loc := (0, 0, height / 2) in
  let rot := (0, 0, PI / 6) in
  V3.create_hex_ring radius thickness height s =
  (c_next s,
   mkCSt (c_objs s ++ [(c_next s,
            mkSolid (cyl (Cylinder 6 radius height) loc rot)
                    [(Cylinder 6 (radius - thickness) (height + 0.1), loc, rot)])])
         (S (S (c_next s)))
         (c_log s ++ [CallAdd (Cylinder 6 radius height) loc rot;
                      CallAdd (Cylinder 6 (radius - thickness) (height + 0.1)) loc rot;
                      CallBoolDifference (c_next s) (S (c_next s));
                      CallRemove (S (c_next s))])) /\
  V4.hex_ring radius thickness height s =
  (c_next s,
   mkCSt (c_objs s ++ [(c_next s,
            mkSolid (cyl (Cylinder 6 radius height) loc rot)
                    [(Cylinder 6 (radius - thickness) (height + 0.08), loc, rot)])])
         (S (S (c_next s)))
         (c_log s ++ [CallAdd (Cylinder 6 radius height) loc rot;
                      CallAdd (Cylinder 6 (radius - thickness) (height + 0.08)) loc rot;
                      CallBoolDifference (c_next s) (S (c_next s));
                      CallRemove (S (c_next s))])).
Proof.
  intros radius thickness height s Hwf loc rot.
  split; [unfold V3.create_hex_ring | unfold V4.hex_ring];
    apply carve_with_effect; exact Hwf.
Qed.

Lemma ring_carver_no_parameter_check_witness :
  wf (mkCSt [] 0 []) /\
  fst (V3.create_hex_ring 6 (- 0.5) 0.4 (mkCSt [] 0 [])) = 0%nat.
Proof.
  assert (Hwf : wf (mkCSt [] 0 [])) by (unfold wf; simpl; constructor).
  split; [exact Hwf |].
  rewrite (proj1 (ring_carver_no_parameter_check 6 (- 0.5) 0.4 _ Hwf)).
  reflexivity.
Defined.

(** C7 as stated fails: with a negative thickness the hexagonal ring
    carver raises nothing; it returns object 0 and has made its four host
    calls, the inner cylinder wider than the outer one. *)
Lemma hex_ring_negative_thickness_runs :
  V3.create_hex_ring 6 (- 0.5) 0.4 (mkCSt [] 0 []) =
  (0%nat,
   mkCSt [(0%nat, mkSolid (cyl (Cylinder 6 6 0.4) (0, 0, 0.4 / 2) (0, 0, PI / 6))
                   [(Cylinder 6 (6 - - 0.5) (0.4 + 0.1), (0, 0, 0.4 / 2),
                     (0, 0, PI / 6))])]
         2
         [CallAdd (Cylinder 6 6 0.4) (0, 0, 0.4 / 2) (0, 0, PI / 6);
          CallAdd (Cylinder 6 (6 - - 0.5) (0.4 + 0.1)) (0, 0, 0.4 / 2) (0, 0, PI / 6);
          CallBoolDifference 0 1; CallRemove 1]).
Proof.
  unfold V3.create_hex_ring.
  rewrite carve_with_effect by (unfold wf; simpl; constructor).
  reflexivity.
Qed.

End RingParameters.

(* ================================================================== *)
(** * Further properties of the builders *)

(** Decimal literals denote [Q2R] of a rational; [field] and [ring] need
    them as quotients of integers. *)
Ltac unq := unfold Q2R; cbn [QArith_base.Qnum QArith_base.Qden].

(* ------------------------------------------------------------------ *)
(** ** [math.atan2] and the pose of the segment cylinders *)

Lemma sqrt_sum_sq_factor : forall x y, x <> 0 ->
  sqrt (x * x + y * y) = Rabs x * sqrt (1 + (y / x)²).
Proof.
  intros x y Hx.
  rewrite <- sqrt_Rsqr_abs, <- sqrt_mult_alt by apply Rle_0_sqr.
  f_equal; unfold Rsqr; field; assumption.
Qed.

Lemma atan_polar : forall x y, x <> 0 ->
  cos (atan (y / x)) * sqrt (x * x + y * y) = Rabs x /\
  sin (atan (y / x)) * sqrt (x * x + y * y) = y / x * Rabs x.
Proof.
  intros x y Hx.
  rewrite sqrt_sum_sq_factor by assumption.
  rewrite cos_atan, sin_atan.
  assert (HS : 0 < sqrt (1 + (y / x)²)).
  { apply sqrt_lt_R0. pose proof (Rle_0_sqr (y / x)); lra. }
  split; field; lra.
Qed.

(** [atan2(y, x)] is the angle of the point [(x, y)]. *)
Lemma atan2_polar : forall x y, x <> 0 \/ y <> 0 ->
  cos (atan2 y x) * sqrt (x * x + y * y) = x /\
  sin (atan2 y x) * sqrt (x * x + y * y) = y.
Proof.
  intros x y Hxy.
  unfold atan2.
  destruct (total_order_T x 0) as [[Hx | Hx] | Hx].
  - pose proof (atan_polar x y ltac:(lra)) as [Hc Hs].
    rewrite Rabs_left in Hc, Hs by assumption.
    assert (Hyx : y / x * - x = - y) by (field; lra).
    destruct (Rle_lt_dec 0 y).
    + rewrite neg_cos, neg_sin; split; lra.
    + rewrite cos_minus, sin_minus, cos_PI, sin_PI; split; lra.
  - subst x.
    destruct Hxy as [Hx | Hy]; [lra |].
    destruct (total_order_T y 0) as [[Hy' | Hy'] | Hy']; [| lra |].
    + rewrite cos_neg, sin_neg, cos_PI2, sin_PI2.
      replace (0 * 0 + y * y) with (Rsqr y) by (unfold Rsqr; ring).
      rewrite sqrt_Rsqr_abs, Rabs_left by assumption. lra.
    + rewrite cos_PI2, sin_PI2.
      replace (0 * 0 + y * y) with (Rsqr y) by (unfold Rsqr; ring).
      rewrite sqrt_Rsqr_abs, Rabs_right by lra. lra.
  - pose proof (atan_polar x y ltac:(lra)) as [Hc Hs].
    rewrite Rabs_right in Hc, Hs by lra.
    split; [lra |].
    rewrite Hs; field; lra.
Qed.

(** The local Z axis under [rotation = (pi/2, 0, h)]. *)
Lemma tilted_axis : forall h,
  Blender.euler_xyz (PI / 2, 0, h) Blender.local_z = (sin h, - cos h, 0).
Proof.
  intros h.
  unfold Blender.euler_xyz, Blender.rot_x, Blender.rot_y, Blender.rot_z,
    Blender.local_z.
  rewrite cos_PI2, sin_PI2, cos_0, sin_0.
  f_equal; [f_equal |]; ring.
Qed.

(** Under [rotation = (pi/2, 0, atan2(dy, dx))] the local Z axis is the
    horizontal unit vector perpendicular to [(dx, dy)]. *)
Lemma tilted_axis_perp : forall dx dy, dx <> 0 \/ dy <> 0 ->
  let '(ax, ay, az) := Blender.euler_xyz (PI / 2, 0, atan2 dy dx)
                         Blender.local_z in
  az = 0 /\ ax * ax + ay * ay = 1 /\ ax * dx + ay * dy = 0.
Proof.
  intros dx dy Hd.
  rewrite tilted_axis.
  pose proof (atan2_polar dx dy Hd) as [Hc Hs].
  set (r := sqrt (dx * dx + dy * dy)) in *.
  set (h := atan2 dy dx) in *.
  assert (Hr : r <> 0).
  { intro Hr; rewrite Hr in Hc, Hs; destruct Hd; lra. }
  split; [reflexivity |].
  split.
  - pose proof (sin2_cos2 h) as H; unfold Rsqr in H; lra.
  - apply (Rmult_eq_reg_r r); [| exact Hr].
    transitivity ((sin h * r) * dx - (cos h * r) * dy); [ring |].
    rewrite Hc, Hs; ring.
Qed.

Lemma norm2_polar_r : forall r a, 0 <= r ->
  Spec.norm2 (cos a * r, sin a * r) = r.
Proof.
  intros r a Hr.
  rewrite (Rmult_comm (cos a)), (Rmult_comm (sin a)).
  apply norm2_polar; assumption.
Qed.

Lemma points_differ : forall p q : R2, Spec.norm2 p <> Spec.norm2 q ->
  fst q - fst p <> 0 \/ snd q - snd p <> 0.
Proof.
  intros [x1 y1] [x2 y2] H; cbn [fst snd].
  destruct (Req_dec (x2 - x1) 0) as [Hx | Hx]; [| left; exact Hx].
  destruct (Req_dec (y2 - y1) 0) as [Hy | Hy]; [| right; exact Hy].
  exfalso; apply H.
  replace x2 with x1 by lra; replace y2 with y1 by lra; reflexivity.
Qed.

(* ------------------------------------------------------------------ *)
(** ** The lava cracks of V4 *)

Lemma crack_end_norms : forall i s,
  Spec.norm2 (fst (V4.crack_ends i s)) = 1 + 0.75 * INR s /\
  Spec.norm2 (snd (V4.crack_ends i s)) = 1 + 0.75 * INR (s + 1).
Proof.
  intros i s.
  pose proof (pos_INR s) as Hs; pose proof (pos_INR (s + 1)) as Hs1.
  unfold V4.crack_ends; cbv zeta; cbn [fst snd].
  replace (INR 4) with 4 by (simpl; lra).
  split; rewrite norm2_polar_r by lra; lra.
Qed.

(** Each V4 lava crack is a polyline of four cylinders leaving the
    centre: segment [s] of a crack joins a point at distance [1 + 0.75 s]
    to one at distance [1 + 0.75 (s + 1)], where segment [s + 1] starts.
    The cylinder's depth is the distance of the two points and its
    location their midpoint, but its axis (rotation
    [(pi/2, 0, atan2(dy, dx))] in Blender's XYZ order) is horizontal and
    perpendicular to the segment. *)
Theorem lava_crack_segments : forall i s,
  let p := fst (V4.crack_ends i s) in
  let q := snd (V4.crack_ends i s) in
  let o := V4.crack_segment i s in
  Spec.norm2 p = 1 + 0.75 * INR s /\
  Spec.norm2 q = 1 + 0.75 * INR (s + 1) /\
  q = fst (V4.crack_ends i (S s)) /\
  o_prim o = Cylinder default_cylinder_vertices 0.05 (dist2 p q) /\
  o_loc o = ((fst p + fst q) / 2, (snd p + snd q) / 2, 0.03) /\
  (let '(ax, ay, az) := Blender.axis o in
   az = 0 /\ ax * ax + ay * ay = 1 /\
   ax * (fst q - fst p) + ay * (snd q - snd p) = 0).
Proof.
  intros i s p q o.
  pose proof (crack_end_norms i s) as [Hp Hq].
  fold p q in Hp, Hq.
  assert (Hd : fst q - fst p <> 0 \/ snd q - snd p <> 0).
  { apply points_differ; rewrite Hp, Hq, plus_INR; simpl INR; lra. }
  split; [exact Hp |]. split; [exact Hq |].
  split.
  { subst q; unfold V4.crack_ends; cbv zeta; cbn [fst snd].
    rewrite !Nat.add_1_r; reflexivity. }
  subst o; unfold V4.crack_segment.
  subst p q; destruct (V4.crack_ends i s) as [[x1 y1] [x2 y2]].
  cbn [fst snd] in *.
  split; [reflexivity |]. split; [reflexivity |].
  unfold Blender.axis; cbn [o_rot].
  exact (tilted_axis_perp (x2 - x1) (y2 - y1) Hd).
Qed.

(* ------------------------------------------------------------------ *)
(** ** The rune beams and the chains of V4 *)

(** A V4 rune beam toward the pillar at [(x, y)] is centred halfway
    between the centre and the pillar, and its depth is the pillar's
    distance plus 0.1; but its axis (rotation [(pi/2, 0, atan2(y, x))])
    is horizontal and perpendicular to the direction of the pillar, so
    the beam lies across that direction instead of along it. *)
Theorem rune_beam_across : forall x y, x <> 0 \/ y <> 0 ->
  let o := V4.rune_beam (x, y) in
  o_loc o = (x / 2, y / 2, 0.12) /\
  o_prim o = Cylinder default_cylinder_vertices 0.04 (Spec.norm2 (x, y) + 0.1) /\
  (let '(ax, ay, az) := Blender.axis o in
   az = 0 /\ ax * ax + ay * ay = 1 /\ ax * x + ay * y = 0).
Proof.
  intros x y Hxy o.
  split; [reflexivity |]. split; [reflexivity |].
  exact (tilted_axis_perp x y Hxy).
Qed.

Lemma rune_beam_across_witness :
  (V4.PILLAR_RADIUS_POS <> 0 \/ 0 <> 0) /\
  o_loc (V4.rune_beam (V4.PILLAR_RADIUS_POS, 0)) =
  (V4.PILLAR_RADIUS_POS / 2, 0 / 2, 0.12).
Proof.
  assert (H : V4.PILLAR_RADIUS_POS <> 0 \/ 0 <> 0).
  { left; unfold V4.PILLAR_RADIUS_POS, V4.PLATFORM_RADIUS, V4.PLATFORM_SIZE; lra. }
  split; [exact H |].
  exact (proj1 (rune_beam_across V4.PILLAR_RADIUS_POS 0 H)).
Defined.

(** The Bezier of a chain whose control point is above the midpoint of
    its two ends: straight in plan view, sagging [0.6 t (1 - t)]. *)
Lemma chain_bez_profile : forall (a b : R2) zt t,
  V4.bez ((fst a, snd a, zt),
          ((fst a + fst b) / 2, (snd a + snd b) / 2, zt - 0.3),
          (fst b, snd b, zt)) t =
  (fst a + t * (fst b - fst a), snd a + t * (snd b - snd a),
   zt - 0.6 * (t * (1 - t))).
Proof.
  intros [ax ay] [bx by'] zt t; unfold V4.bez; cbn [fst snd].
  unq; f_equal; [f_equal |]; field.
Qed.

Lemma in_chains_between : forall pp o, In o (V4.chains_between pp) ->
  exists i j, (i < 6)%nat /\ (j < 12)%nat /\
  let a := nth i pp (0, 0) in
  let b := nth ((i + 1) mod V4.NUM_SIDES) pp (0, 0) in
  o = V4.chain_link ((fst a, snd a, V4.PILLAR_HEIGHT * 0.9),
                     ((fst a + fst b) / 2, (snd a + snd b) / 2,
                      V4.PILLAR_HEIGHT * 0.9 - 0.3),
                     (fst b, snd b, V4.PILLAR_HEIGHT * 0.9)) 12 0.035 j.
Proof.
  intros pp o Ho.
  unfold V4.chains_between in Ho.
  apply in_concat in Ho as (l & Hl & Ho).
  apply in_map_iff in Hl as (i & <- & Hi).
  unfold V4.chain_segments in Ho.
  apply in_map_iff in Ho as (j & <- & Hj).
  unfold range in Hi, Hj; apply in_seq in Hi, Hj.
  exists i, j; unfold V4.NUM_SIDES in *.
  split; [lia |]. split; [lia |].
  reflexivity.
Qed.

(** The sample points [j/12] and [(j+1)/12] of a chain link. *)
Lemma chain_link_samples : forall (a b : R2) zt j,
  let pts := ((fst a, snd a, zt),
              ((fst a + fst b) / 2, (snd a + snd b) / 2, zt - 0.3),
              (fst b, snd b, zt)) in
  let t := INR j / INR 12 in
  let t2 := INR (j + 1) / INR 12 in
  V4.chain_link pts 12 0.035 j =
  mkObj (Cylinder default_cylinder_vertices 0.035
           (dist3 (V4.bez pts t) (V4.bez pts t2)))
        (NFixed "Cylinder")
        (Spec.midpoint (V4.bez pts t) (V4.bez pts t2))
        (PI / 2, 0, Spec.heading (V4.bez pts t) (V4.bez pts t2)) []
        "metal" None.
Proof.
  intros a b zt j pts t t2.
  unfold V4.chain_link; fold t t2.
  destruct (V4.bez pts t) as [[x1 y1] z1].
  destruct (V4.bez pts t2) as [[x2 y2] z2].
  reflexivity.
Qed.

(** Every link of [chains_between(pp)], whatever the pillar positions:
    in plan view it is centred on the straight line between its two
    pillars, at fraction [(2j + 1)/24] for link [j], and it hangs below
    the pillar-top height [z_top = PILLAR_HEIGHT * 0.9] by at most 0.15. *)
Theorem chain_links_hang : forall pp o, In o (V4.chains_between pp) ->
  exists i j, (i < 6)%nat /\ (j < 12)%nat /\
  let a := nth i pp (0, 0) in
  let b := nth ((i + 1) mod V4.NUM_SIDES) pp (0, 0) in
  let t := (2 * INR j + 1) / 24 in
  let zt := V4.PILLAR_HEIGHT * 0.9 in
  Spec.planar (o_loc o) =
    (fst a + t * (fst b - fst a), snd a + t * (snd b - snd a)) /\
  zt - 0.15 <= z_of (o_loc o) < zt.
Proof.
  intros pp o Ho.
  destruct (in_chains_between pp o Ho) as (i & j & Hi & Hj & ->).
  exists i, j; split; [exact Hi |]; split; [exact Hj |].
  intros a b t zt.
  rewrite chain_link_samples, !chain_bez_profile.
  cbn [o_loc]; unfold Spec.midpoint, Spec.planar, z_of.
  assert (Hj' : INR j <= 11) by (replace 11 with (INR 11) by (simpl; lra);
                                  apply le_INR; lia).
  pose proof (pos_INR j) as Hj0.
  rewrite plus_INR.
  replace (INR 12) with 12 by (simpl; lra).
  replace (INR 1) with 1 by reflexivity.
  split.
  - unfold t; subst a b; f_equal; field.
  - set (u := INR j / 12).
    assert (Hu0 : 0 <= u) by (unfold u; lra).
    assert (Hu1 : u <= 11 / 12) by (unfold u; lra).
    replace ((INR j + 1) / 12) with (u + 1 / 12) by (unfold u; field).
    unfold zt; split.
    + pose proof (Rle_0_sqr (u - 1 / 2)).
      pose proof (Rle_0_sqr (u + 1 / 12 - 1 / 2)).
      unfold Rsqr in *; nra.
    + assert (0 <= u * (11 / 12 - u)) by (apply Rmult_le_pos; lra).
      nra.
Qed.

Lemma chain_links_hang_witness :
  In (hd (mkObj Empty (NFixed "") (0, 0, 0) (0, 0, 0) [] "" None)
         (V4.chains_between V4.pillar_positions))
     (V4.chains_between V4.pillar_positions) /\
  exists i j, (i < 6)%nat /\ (j < 12)%nat /\ True.
Proof.
  assert (H : In (hd (mkObj Empty (NFixed "") (0, 0, 0) (0, 0, 0) [] "" None)
                     (V4.chains_between V4.pillar_positions))
                 (V4.chains_between V4.pillar_positions)).
  { unfold V4.chains_between, V4.NUM_SIDES, range.
    cbn [seq map concat V4.chain_segments app hd].
    left; reflexivity. }
  split; [exact H |].
  destruct (chain_links_hang _ _ H) as (i & j & Hi & Hj & _).
  exists i, j; repeat split; assumption.
Defined.

(** Every link [j] of the chain between pillars [a] and [b], for any
    pillar positions with neighbours apart: the cylinder takes as depth the
    length of the Bezier segment [bez(j/12)]-[bez((j+1)/12)] and sits at its
    midpoint, but its rotation [(pi/2, 0, atan2(dy, dx))] turns its axis
    into the horizontal unit vector perpendicular to that segment. *)
Theorem chain_links_across : forall pp o, In o (V4.chains_between pp) ->
  (forall i, (i < 6)%nat ->
     nth i pp (0, 0) <> nth ((i + 1) mod V4.NUM_SIDES) pp (0, 0)) ->
  exists i j, (i < 6)%nat /\ (j < 12)%nat /\
  let a := nth i pp (0, 0) in
  let b := nth ((i + 1) mod V4.NUM_SIDES) pp (0, 0) in
  let zt := V4.PILLAR_HEIGHT * 0.9 in
  let pts := ((fst a, snd a, zt),
              ((fst a + fst b) / 2, (snd a + snd b) / 2, zt - 0.3),
              (fst b, snd b, zt)) in
  let p1 := V4.bez pts (INR j / INR 12) in
  let p2 := V4.bez pts (INR (j + 1) / INR 12) in
  o_prim o = Cylinder default_cylinder_vertices 0.035 (dist3 p1 p2) /\
  o_loc o = Spec.midpoint p1 p2 /\
  let '(x1, y1, z1) := p1 in
  let '(x2, y2, z2) := p2 in
  let '(ax, ay, az) := Blender.axis o in
  (x1 <> x2 \/ y1 <> y2) /\ az = 0 /\ ax * ax + ay * ay = 1 /\
  ax * (x2 - x1) + ay * (y2 - y1) + az * (z2 - z1) = 0.
Proof.
  intros pp o Ho Hd.
  destruct (in_chains_between pp o Ho) as (i & j & Hi & Hj & ->).
  exists i, j; split; [exact Hi |]; split; [exact Hj |].
  specialize (Hd i Hi).
  destruct (nth i pp (0, 0)) as [xa ya].
  destruct (nth ((i + 1) mod V4.NUM_SIDES) pp (0, 0)) as [xb yb].
  rewrite (chain_link_samples (xa, ya) (xb, yb)).
  cbv zeta; cbn [o_prim o_loc o_rot Blender.axis].
  rewrite !(chain_bez_profile (xa, ya) (xb, yb)); cbn [fst snd].
  split; [reflexivity |]; split; [reflexivity |].
  unfold Spec.heading, Blender.axis; cbv beta iota; cbn [o_rot].
  set (dx := xa + INR (j + 1) / INR 12 * (xb - xa) -
             (xa + INR j / INR 12 * (xb - xa))).
  set (dy := ya + INR (j + 1) / INR 12 * (yb - ya) -
             (ya + INR j / INR 12 * (yb - ya))).
  assert (Hdxy : dx <> 0 \/ dy <> 0).
  { assert (E : forall u v, u + INR (j + 1) / INR 12 * (v - u) -
                            (u + INR j / INR 12 * (v - u)) = (v - u) / 12).
    { intros u v; rewrite plus_INR; replace (INR 12) with 12 by (simpl; lra).
      simpl INR; field. }
    unfold dx, dy; rewrite !E.
    destruct (Req_dec xa xb) as [Ex | Ex]; [| left; lra].
    destruct (Req_dec ya yb) as [Ey | Ey]; [| right; lra].
    subst; contradiction. }
  pose proof (tilted_axis_perp dx dy Hdxy) as Hp.
  destruct (Blender.euler_xyz (PI / 2, 0, atan2 dy dx) Blender.local_z)
    as [[ax ay] az].
  destruct Hp as (H0 & H1 & H2).
  split; [| split; [exact H0 | split; [exact H1 |]]].
  - unfold dx, dy in Hdxy; destruct Hdxy; [left | right]; lra.
  - rewrite H0, Rmult_0_l, Rplus_0_r; exact H2.
Qed.

Lemma chain_links_across_witness :
  let pp := [(1, 0); (2, 0); (3, 0); (4, 0); (5, 0); (6, 0)] in
  let o := hd (mkObj Empty (NFixed "") (0, 0, 0) (0, 0, 0) [] "" None)
              (V4.chains_between pp) in
  In o (V4.chains_between pp) /\
  (forall i, (i < 6)%nat ->
     nth i pp (0, 0) <> nth ((i + 1) mod V4.NUM_SIDES) pp (0, 0)) /\
  exists i j, (i < 6)%nat /\ (j < 12)%nat.
Proof.
  intros pp o.
  assert (Hin : In o (V4.chains_between pp)).
  { unfold o, V4.chains_between, V4.NUM_SIDES, range.
    cbn [seq map concat V4.chain_segments app hd].
    left; reflexivity. }
  assert (Hd : forall i, (i < 6)%nat ->
     nth i pp (0, 0) <> nth ((i + 1) mod V4.NUM_SIDES) pp (0, 0)).
  { intros i Hi; unfold pp, V4.NUM_SIDES.
    destruct i as [| [| [| [| [| [| i]]]]]]; [| | | | | | lia];
      cbn [nth Nat.add Nat.modulo Nat.divmod Nat.sub fst snd];
      intro E; injection E; intros; lra. }
  split; [exact Hin |]; split; [exact Hd |].
  destruct (chain_links_across pp o Hin Hd) as (i & j & Hi & Hj & _).
  exists i, j; split; assumption.
Defined.

(* ------------------------------------------------------------------ *)
(** ** Horns *)

(** A builder that only adds one object per item. *)
Lemma mapM_add_obj : forall {A} (f : A -> Host.M Obj) (g : A -> Obj) l s,
  (forall x s, f x s = (g x, Host.mkSt (Host.st_objs s ++ [g x])
                                       (Host.st_rng s))) ->
  Host.mapM f l s =
  (map g l, Host.mkSt (Host.st_objs s ++ map g l) (Host.st_rng s)).
Proof.
  intros A f g l; induction l as [| x l IH]; intros s Hf.
  - cbn. rewrite app_nil_r; destruct s; reflexivity.
  - cbn [Host.mapM]; unfold Host.bind, Host.ret.
    rewrite Hf, IH by exact Hf; cbn [Host.st_objs Host.st_rng map].
    rewrite <- app_assoc; reflexivity.
Qed.

(** Axis of a cone turned about X and Y only. *)
Lemma axis_xy : forall a b,
  Blender.euler_xyz (a, b, 0) Blender.local_z = (cos a * sin b, - sin a, cos a * cos b).
Proof.
  intros a b; unfold Blender.euler_xyz, Blender.rot_x, Blender.rot_y,
    Blender.rot_z, Blender.local_z.
  rewrite cos_0, sin_0; f_equal; [f_equal |]; ring.
Qed.

(** Axis of a cone turned by [-0.5] about X, then about Z. *)
Lemma axis_xz : forall h,
  Blender.euler_xyz (-0.5, 0, h) Blender.local_z =
  (- (sin 0.5 * sin h), sin 0.5 * cos h, cos 0.5).
Proof.
  intros h; unfold Blender.euler_xyz, Blender.rot_x, Blender.rot_y,
    Blender.rot_z, Blender.local_z.
  replace (-0.5) with (Ropp 0.5) by lra.
  rewrite cos_0, sin_0, cos_neg, sin_neg; unq; f_equal; [f_equal |]; ring.
Qed.

Lemma PI_gt_3 : 3 < PI.
Proof. pose proof PI2_3_2; lra. Qed.

(** [c * sin(0.4 c)] is positive on [[-1, 1]] away from 0. *)
Lemma scaled_sin_sign : forall c, -1 <= c <= 1 ->
  0 <= c * sin (0.4 * c) /\ (c <> 0 -> 0 < c * sin (0.4 * c)).
Proof.
  intros c Hc; pose proof PI_gt_3.
  destruct (total_order_T c 0) as [[Hn | Hz] | Hp].
  - assert (0 < sin (- (0.4 * c))) by (apply sin_gt_0; lra).
    rewrite sin_neg in H0.
    split; [| intros _]; nra.
  - subst c; rewrite Rmult_0_l; split; [lra | intros H0; lra].
  - assert (0 < sin (0.4 * c)) by (apply sin_gt_0; lra).
    split; [| intros _]; nra.
Qed.

(** The six V5 horns ([create_demon_horns]) are added to the scene, stand
    on the circle of radius 0.9 at height 0.55 and point upward, but their
    rotation [(0.4 sin(angle), -0.4 cos(angle), 0)] tips the cone's tip
    towards the centre: the horizontal part of the axis makes a negative
    dot product with the horn's position. *)
Theorem v5_horns_lean_inward : forall st,
  let '(hs, st') := V5.create_demon_horns st in
  Host.st_objs st' = Host.st_objs st ++ hs /\
  Host.st_rng st' = Host.st_rng st /\ length hs = 6%nat /\
  Forall (fun h =>
    let '(x, y, z) := o_loc h in
    let '(ax, ay, az) := Blender.axis h in
    x * x + y * y = 0.9 * 0.9 /\ z = 0.55 /\ 0 < az /\
    ax * x + ay * y < 0) hs.
Proof.
  intros st.
  unfold V5.create_demon_horns.
  rewrite (mapM_add_obj _ (fun i => fst (V5.create_horn i st))) by reflexivity.
  split; [reflexivity |]; split; [reflexivity |].
  split; [rewrite length_map; reflexivity |].
  apply Forall_forall; intros h Hh.
  apply in_map_iff in Hh as (i & <- & _).
  unfold V5.create_horn, Host.add_obj, V5.mk, Blender.axis;
    cbv zeta; cbn [fst o_loc o_rot].
  rewrite axis_xy.
  set (th := INR i * PI / 3 + PI / 6).
  pose proof (COS_bound th) as Hc; pose proof (SIN_bound th) as Hs.
  pose proof (sin2_cos2 th) as H1; unfold Rsqr in H1.
  pose proof PI_gt_3.
  assert (Hca : 0 < cos (0.4 * sin th)) by (apply cos_gt_0; nra).
  assert (Hcb : 0 < cos (- 0.4 * cos th)) by (apply cos_gt_0; nra).
  replace (- 0.4 * cos th) with (- (0.4 * cos th)) in * by lra.
  rewrite sin_neg.
  destruct (scaled_sin_sign (cos th) Hc) as [C0 C1].
  destruct (scaled_sin_sign (sin th) Hs) as [S0 S1].
  split; [nra |]; split; [reflexivity |]; split; [nra |].
  destruct (Req_dec (cos th) 0) as [E | E].
  - assert (sin th <> 0) by (intro; nra).
    specialize (S1 H0). rewrite E. nra.
  - specialize (C1 E). nra.
Qed.

(** The horns of V4 ([horns]) and V3 ([create_demon_horns]): on the
    circle of radius 1.1 at height 0.6, with rotation
    [(-0.5, 0, ang + pi)] the cone's tip leans sideways, along the
    circle: the horizontal part of its axis is not zero and is
    perpendicular to the horn's position. *)
Theorem v4_v3_horns_lean_sideways :
  let P := fun h =>
    let '(x, y, z) := o_loc h in
    let '(ax, ay, az) := Blender.axis h in
    x * x + y * y = 1.1 * 1.1 /\ z = 0.6 /\ az = cos 0.5 /\ 0 < az /\
    0 < ax * ax + ay * ay /\ ax * x + ay * y = 0 in
  Forall P V4.horns /\ Forall P V3.create_demon_horns.
Proof.
  intros P.
  assert (Hs5 : 0 < sin 0.5) by (pose proof PI_gt_3; apply sin_gt_0; lra).
  assert (Hc5 : 0 < cos 0.5) by (pose proof PI_gt_3; apply cos_gt_0; lra).
  assert (Hgen : forall ang, P (mkObj (Cone 8 0.1 0 0.45) (NFixed "Cone")
      (cos ang * 1.1, sin ang * 1.1, 0.6) (-0.5, 0, ang + PI) [] "metal" None)).
  { intros ang; unfold P, Blender.axis; cbn [o_loc o_rot].
    rewrite axis_xz, neg_sin, neg_cos.
    pose proof (sin2_cos2 ang) as H1; unfold Rsqr in H1.
    split; [pose proof (polar_norm_sq ang 1.1); lra |].
    split; [reflexivity |]; split; [reflexivity |]; split; [exact Hc5 |].
    split; [nra | ring]. }
  split; apply Forall_forall; intros h Hh; apply in_map_iff in Hh as (i & <- & _).
  - apply Hgen.
  - unfold V3.create_demon_horn; cbv zeta.
    replace 0.0 with 0 by lra. apply Hgen.
Qed.

(* ------------------------------------------------------------------ *)
(** ** Pillar stacks *)

Ltac heights :=
  unfold bottom, top, half_extent, z_of; cbn [o_loc o_prim o_deforms
    half_height z_scale z_of]; unq; lra.

(** A V5 pillar ([create_pillar(x, y, index)]) adds its six objects to the
    scene, all centred on [(x, y)]: the shaft and the base stand on the
    floor, the capital ends level with the shaft's top, the brazier sits on
    the capital and the fire on the brazier's mid-height; the "floating"
    crystal, stretched by 1.4, reaches down into the fire sphere. *)
Theorem v5_pillar_stack : forall x y index st,
  let '(parts, st') := V5.create_pillar x y index st in
  Host.st_objs st' = Host.st_objs st ++ parts /\
  Host.st_rng st' = Host.st_rng st /\
  Forall (fun o => Spec.planar (o_loc o) = (x, y)) parts /\
  match parts with
  | [shaft; base; cap; brazier; fire; crystal] =>
      bottom shaft = 0 /\ top shaft = V5.PILLAR_HEIGHT /\ bottom base = 0 /\
      top cap = top shaft /\ bottom brazier = top cap /\
      bottom fire = z_of (o_loc brazier) /\ bottom crystal < top fire
  | _ => False
  end.
Proof.
  intros x y index st.
  unfold V5.create_pillar, Host.bind, Host.add_obj, Host.ret, V5.mk.
  cbn [Host.st_objs Host.st_rng].
  split; [rewrite <- !app_assoc; reflexivity |].
  split; [reflexivity |].
  split; [repeat constructor |].
  unfold V5.PILLAR_HEIGHT, V5.PILLAR_RADIUS, V5.no_rot.
  repeat split; heights.
Qed.

(** The V4 [pillar(pos)] and V3 [create_pillar(loc)] parts, lights
    included, are all centred on [pos]: body and base stand on the floor,
    the cap sits on the body's top and the brazier bowl on the cap; the
    crystal light shines from the crystal's centre and the fire light 0.15
    above the bowl's; the "floating" crystal, stretched by 1.6, reaches
    below the top of each of the three fire spheres. *)
Theorem v3_v4_pillar_stack : forall x y,
  let stack := fun (body base cap cry bowl : Obj) (fires : list Obj)
                   (l1 l2 : R3) =>
    bottom body = 0 /\ top body = 2.5 /\ bottom base = 0 /\
    bottom cap = top body /\ bottom bowl = top cap /\
    l1 = o_loc cry /\ z_of l2 = z_of (o_loc bowl) + 0.15 /\
    length fires = 3%nat /\ Forall (fun f => bottom cry < top f) fires in
  let centred := Forall (fun p => Spec.planar (part_loc p) = (x, y)) in
  centred (V4.pillar (x, y)) /\ centred (V3.create_pillar (x, y)) /\
  match V4.pillar (x, y) with
  | [PObj body; PObj base; PObj cap; PObj cry; PObj bowl;
     PObj f1; PObj f2; PObj f3; PLight l1 _ _ _; PLight l2 _ _ _] =>
      stack body base cap cry bowl [f1; f2; f3] l1 l2
  | _ => False
  end /\
  match V3.create_pillar (x, y) with
  | [PObj body; PObj base; PObj cap; PObj cry; PLight l1 _ _ _; PObj bowl;
     PObj f1; PObj f2; PObj f3; PLight l2 _ _ _] =>
      stack body base cap cry bowl [f1; f2; f3] l1 l2
  | _ => False
  end.
Proof.
  intros x y stack centred.
  unfold centred, stack, V4.pillar, V3.create_pillar, V4.PILLAR_HEIGHT,
    V3.PILLAR_HEIGHT; cbv zeta; cbn [map combine app].
  split; [repeat constructor |].
  split; [repeat constructor |].
  split; (split; [heights |]; split; [heights |]; split; [heights |];
          split; [heights |]; split; [heights |]; split; [reflexivity |];
          split; [cbn [z_of o_loc]; unq; lra |]; split; [reflexivity |];
          repeat constructor; heights).
Qed.

(* ------------------------------------------------------------------ *)
(** ** Altars *)

(** The V5 altar ([create_altar]) adds its five objects to the scene,
    centred on the origin: the three hexagonal tiers stack flush from the
    floor, the fire pillar stands on the top tier, and the soul orb's lowest
    point is below the fire pillar's top. *)
Theorem v5_altar_stack : forall st,
  let '(parts, st') := V5.create_altar st in
  Host.st_objs st' = Host.st_objs st ++ parts /\
  Host.st_rng st' = Host.st_rng st /\
  Forall (fun o => Spec.planar (o_loc o) = (0, 0)) parts /\
  match parts with
  | [base; mid; top_tier; fire_pillar; orb] =>
      bottom base = 0 /\ bottom mid = top base /\ bottom top_tier = top mid /\
      bottom fire_pillar = top top_tier /\ bottom orb < top fire_pillar
  | _ => False
  end.
Proof.
  intros st.
  unfold V5.create_altar, Host.bind, Host.add_obj, Host.ret, V5.mk.
  cbn [Host.st_objs Host.st_rng].
  split; [rewrite <- !app_assoc; reflexivity |].
  split; [reflexivity |].
  split; [repeat constructor |].
  repeat split; heights.
Qed.

(** V3's [create_central_altar()] and V4's [altar()] build the same parts.
    Their base tier stands on the floor and the middle tier on the base,
    but the top tier (depth 0.14 centred at 0.54) floats 0.02 above the
    middle tier; the fire column starts inside the top tier, and the light
    is inside the fire column. *)
Theorem v3_v4_altar_gap :
  V3.create_central_altar = V4.altar /\
  match V4.altar with
  | [PObj base; PObj mid; PObj top_tier; PObj column; PObj orb;
     PLight l _ _ _] =>
      bottom base = 0 /\ bottom mid = top base /\
      bottom top_tier - top mid = 0.02 /\
      bottom top_tier < bottom column < top top_tier /\
      bottom column < z_of l < top column /\
      Spec.planar l = (0, 0)
  | _ => False
  end.
Proof.
  split; [reflexivity |].
  unfold V4.altar.
  repeat split; try heights; cbn [z_of]; unq; lra.
Qed.

(** The first script's altar ([create_central_altar]): three octagonal
    tiers stack flush from the floor, the orb rests on the top tier, and
    the orb light is at the orb's centre. *)
Theorem v1_altar_stack :
  match V1Scene.create_central_altar with
  | [PObj base; PObj mid; PObj top_tier; PObj orb; PLight l _ _ _] =>
      bottom base = 0 /\ bottom mid = top base /\
      bottom top_tier = top mid /\ bottom orb = top top_tier /\
      l = o_loc orb
  | _ => False
  end.
Proof.
  unfold V1Scene.create_central_altar.
  repeat split; try heights.
Qed.

(* ------------------------------------------------------------------ *)
(** ** The V5 skull scatter as a whole *)

Lemma v5_create_skull_step : forall mt i s,
  V5.create_skull mt i s =
  (fst (V5.create_skull mt i s),
   Host.mkSt (Host.st_objs s ++ [fst (V5.create_skull mt i s)])
             (Host.mkRng (Host.rng_seed (Host.st_rng s))
                         (S (S (Host.rng_pos (Host.st_rng s)))))).
Proof. intros mt i [objs [sd pos]]; reflexivity. Qed.

Lemma v5_skull_shape : forall mt i s,
  0 <= mt (Host.rng_seed (Host.st_rng s)) (S (Host.rng_pos (Host.st_rng s))) <= 1 ->
  let o := fst (V5.create_skull mt i s) in
  2.5 <= Spec.norm2 (Spec.planar (o_loc o)) <= 5 /\ z_of (o_loc o) = 0.05.
Proof.
  intros mt i s Hu o.
  unfold o; rewrite v5_skull_distance by lra.
  split; [lra | reflexivity].
Qed.

Lemma v5_skulls_mapM : forall mt l s,
  (forall k, 0 <= mt (Host.rng_seed (Host.st_rng s)) k <= 1) ->
  let '(sk, s') := Host.mapM (V5.create_skull mt) l s in
  length sk = length l /\ Host.st_objs s' = Host.st_objs s ++ sk /\
  Host.st_rng s' = Host.mkRng (Host.rng_seed (Host.st_rng s))
                              (Host.rng_pos (Host.st_rng s) + 2 * length l) /\
  Forall (fun o => 2.5 <= Spec.norm2 (Spec.planar (o_loc o)) <= 5 /\
                   z_of (o_loc o) = 0.05) sk.
Proof.
  intros mt l; induction l as [| i l IH]; intros s Hmt.
  - cbn; rewrite app_nil_r, Nat.add_0_r.
    destruct s as [objs [sd pos]]; repeat split; constructor.
  - cbn [Host.mapM]; unfold Host.bind at 1.
    rewrite v5_create_skull_step.
    set (o := fst (V5.create_skull mt i s)).
    set (s1 := Host.mkSt _ _).
    specialize (IH s1 Hmt).
    unfold Host.bind; destruct (Host.mapM (V5.create_skull mt) l s1) as [sk s'].
    destruct IH as (IH1 & IH2 & IH3 & IH4).
    unfold Host.ret; cbn [length].
    split; [rewrite IH1; reflexivity |].
    split; [rewrite IH2; cbn [Host.st_objs s1]; rewrite <- app_assoc; reflexivity |].
    split; [rewrite IH3; cbn [s1 Host.st_rng Host.rng_seed Host.rng_pos];
            f_equal; lia |].
    constructor; [| exact IH4].
    apply v5_skull_shape, Hmt.
Qed.

(** [create_skulls(count)] adds [count] skulls to the scene and advances
    the random stream by two draws per skull; when every draw of the
    seed's stream lies in [[0, 1]] (as [random()]'s do) every skull lies
    on the floor ring between radius 2.5 and 5, at height 0.05. *)
Theorem v5_skulls_in_ring : forall mt count s,
  (forall k, 0 <= mt (Host.rng_seed (Host.st_rng s)) k <= 1) ->
  let '(sk, s') := V5.create_skulls mt count s in
  length sk = count /\ Host.st_objs s' = Host.st_objs s ++ sk /\
  Host.st_rng s' = Host.mkRng (Host.rng_seed (Host.st_rng s))
                              (Host.rng_pos (Host.st_rng s) + 2 * count) /\
  Forall (fun o => 2.5 <= Spec.norm2 (Spec.planar (o_loc o)) <= 5 /\
                   z_of (o_loc o) = 0.05) sk.
Proof.
  intros mt count s Hmt.
  unfold V5.create_skulls.
  pose proof (v5_skulls_mapM mt (range count) s Hmt) as H.
  destruct (Host.mapM (V5.create_skull mt) (range count) s) as [sk s'].
  unfold range in H; rewrite length_seq in H; exact H.
Qed.

Lemma v5_skulls_in_ring_witness :
  let mt := fun (_ : Z) (_ : nat) => 1 / 2 in
  let s := Host.mkSt [] (Host.mkRng 42 0) in
  (forall k, 0 <= mt (Host.rng_seed (Host.st_rng s)) k <= 1) /\
  length (fst (V5.create_skulls mt 3 s)) = 3%nat.
Proof.
  intros mt s.
  assert (Hmt : forall k, 0 <= mt (Host.rng_seed (Host.st_rng s)) k <= 1).
  { intros k; unfold mt; lra. }
  split; [exact Hmt |].
  pose proof (v5_skulls_in_ring mt 3 s Hmt) as H.
  destruct (V5.create_skulls mt 3 s) as [sk s'].
  destruct H as [H _]; exact H.
Defined.

(* ------------------------------------------------------------------ *)
(** ** [hex_vertices] *)

Lemma polar_chord_sq : forall a b r,
  (cos b * r - cos a * r) ^ 2 + (sin b * r - sin a * r) ^ 2 =
  r * r * (2 - 2 * cos (b - a)).
Proof.
  intros a b r; rewrite cos_minus.
  pose proof (sin2_cos2 a) as Ha; pose proof (sin2_cos2 b) as Hb.
  unfold Rsqr in Ha, Hb.
  transitivity (r * r * ((sin b * sin b + cos b * cos b) +
                         (sin a * sin a + cos a * cos a) -
                         2 * (cos b * cos a + sin b * sin a))); [ring |].
  rewrite Ha, Hb; ring.
Qed.

(** [hex_vertices(radius, offset)] (the same function in V3 and V4) lists
    six points on the circle of [radius], each one at distance [radius]
    from the next, the last from the first included: a regular hexagon,
    for any offset. *)
Theorem hex_vertices_regular : forall radius offset i,
  0 <= radius -> (i < 6)%nat ->
  let vs := V4.hex_vertices radius offset in
  let v := nth i vs (0, 0) in
  let w := nth ((i + 1) mod 6) vs (0, 0) in
  V3.hex_vertices radius offset = vs /\ length vs = 6%nat /\
  Spec.norm2 v = radius /\ dist2 v w = radius.
Proof.
  intros radius offset i Hr Hi vs v w.
  split; [reflexivity |].
  split; [reflexivity |].
  assert (Hcos : cos (offset + INR ((i + 1) mod 6) * V4.tau / INR V4.NUM_SIDES -
                      (offset + INR i * V4.tau / INR V4.NUM_SIDES)) = 1 / 2).
  { unfold V4.tau, V4.NUM_SIDES.
    destruct i as [| [| [| [| [| [| i]]]]]]; [| | | | | | lia];
      cbn [Nat.add Nat.modulo Nat.divmod Nat.sub fst snd].
    1-5: match goal with |- cos ?e = _ =>
           replace e with (PI / 3) by (simpl INR; field) end;
         apply cos_PI3.
    replace (offset + INR 0 * (2 * PI) / INR 6 -
             (offset + INR 5 * (2 * PI) / INR 6)) with (- (INR 5 * PI / 3))
      by (simpl INR; field).
    rewrite cos_neg; apply hex_cs_5. }
  assert (Hv : v = V4.hex_vertex radius offset i).
  { unfold v, vs, V4.hex_vertices, range.
    rewrite nth_indep with (d' := V4.hex_vertex radius offset 0)
      by (rewrite length_map, length_seq; exact Hi).
    rewrite map_nth, seq_nth by exact Hi; reflexivity. }
  assert (Hw : w = V4.hex_vertex radius offset ((i + 1) mod 6)).
  { assert (Hm : ((i + 1) mod 6 < 6)%nat) by (apply Nat.mod_upper_bound; lia).
    unfold w, vs, V4.hex_vertices, range.
    rewrite nth_indep with (d' := V4.hex_vertex radius offset 0)
      by (rewrite length_map, length_seq; exact Hm).
    rewrite map_nth, seq_nth by exact Hm; reflexivity. }
  rewrite Hv, Hw; unfold V4.hex_vertex.
  split; [apply norm2_polar_r; exact Hr |].
  unfold dist2; cbn [fst snd].
  rewrite polar_chord_sq, Hcos.
  replace (radius * radius * (2 - 2 * (1 / 2))) with (radius * radius) by field.
  apply sqrt_square; exact Hr.
Qed.

Lemma hex_vertices_regular_witness :
  dist2 (nth 5 (V4.hex_vertices 7 (PI / 6)) (0, 0))
        (nth 0 (V4.hex_vertices 7 (PI / 6)) (0, 0)) = 7.
Proof.
  assert (H : (0 <= 7)%R) by lra.
  destruct (hex_vertices_regular 7 (PI / 6) 5 H ltac:(lia))
    as (_ & _ & _ & Hd).
  exact Hd.
Defined.

(* ------------------------------------------------------------------ *)
(** ** The V5 scene hierarchy *)

(** After the V5 script, whatever the random stream and the starting
    scene, the scene holds the objects of the build in the order they were
    built (floor, rings, pillar parts, altar, spikes, skulls, horns), each
    unchanged but for its parent, now the root empty [Boss_Platform_V5];
    the root, at the origin and without a parent, comes last; and the
    random stream of seed 42 has been read 16 times (two draws per
    skull). *)
Theorem v5_run_hierarchy : forall (mt : Z -> nat -> R) (st0 : Host.St),
  let '(out, st) := V5.run mt st0 in
  let built := [V5.b_floor out] ++ V5.b_rings out ++ concat (V5.b_pillars out) ++
               V5.b_altar out ++ V5.b_spikes out ++ V5.b_skulls out ++
               V5.b_horns out in
  let shape := fun o => (o_prim o, o_name o, o_loc o, o_rot o, o_deforms o,
                         o_mat o) in
  Host.st_rng st = Host.mkRng 42 16 /\
  match rev (Host.st_objs st) with
  | root :: rest =>
      o_prim root = Empty /\ o_name root = NFixed V5.ROOT_NAME /\
      o_loc root = (0, 0, 0) /\ o_parent root = None /\
      map shape (rev rest) = map shape built /\
      Forall (fun o => o_parent o = Some V5.ROOT_NAME) (rev rest)
  | [] => False
  end.
Proof.
  intros mt st0.
  cbv -[Rplus Rmult Rminus Rdiv Ropp Rinv IZR Q2R cos sin PI sqrt atan atan2
        total_order_T Rle_lt_dec Rlt_dec].
  split; [reflexivity |].
  repeat split.
  repeat constructor.
Qed.

(* ------------------------------------------------------------------ *)
(** ** The first script: rings, corner pillars, edge decorations *)

(** [create_ritual_ring(radius_inner, radius_outer, height, segments)] of
    the first script carves an annulus: the inner cutter is 0.1 deeper
    than the outer cylinder, sticks out at both caps, and is removed after
    the boolean difference; the radii are used as given. *)
Theorem v1_ritual_ring_carves : forall ri ro h segments,
  carves (V1Scene.create_ritual_ring ri ro h segments) segments ro ri h 0.1
    (0, 0, 0).
Proof.
  intros ri ro h segments.
  exact (carve_with_carves segments ro ri h 0.1 (0, 0, 0) ltac:(lra)).
Qed.

Lemma v1_ritual_ring_carves_witness :
  wf (Scene.mkCSt [] 0 []) /\
  carves (V1Scene.create_ritual_ring (6.0 - 0.4) 6.0 0.02 64) 64 6.0
    (6.0 - 0.4) 0.02 0.1 (0, 0, 0).
Proof.
  split; [apply Forall_nil |].
  exact (v1_ritual_ring_carves (6.0 - 0.4) 6.0 0.02 64).
Defined.

Lemma corner_angle_diagonal : forall i,
  cos (V1Scene.corner_pillar_angle i) * cos (V1Scene.corner_pillar_angle i) =
  sin (V1Scene.corner_pillar_angle i) * sin (V1Scene.corner_pillar_angle i).
Proof.
  intros i.
  apply Rminus_diag_uniq.
  rewrite <- cos_2a.
  replace (2 * V1Scene.corner_pillar_angle i) with (INR i * PI + PI / 2)
    by (unfold V1Scene.corner_pillar_angle; field).
  rewrite cos_plus, cos_PI2, sin_PI2.
  rewrite (sin_eq_0_1 (INR i * PI)) by (exists (Z.of_nat i);
                                        rewrite INR_IZR_INZ; reflexivity).
  ring.
Qed.

(** Corner pillar [i] of the first script ([create_corner_pillar] called
    from the build loop) stands on a diagonal at distance 6.5 from the
    centre; its body and base stand on the floor's top face, its cap sits
    on the body, and its crystal (stretched by 1.5) really floats, 0.15
    above the cap, with the crystal light at the crystal's centre. *)
Theorem v1_corner_pillar_stack : forall i, (i < 4)%nat ->
  let angle := V1Scene.corner_pillar_angle i in
  let x := cos angle * V1Scene.PILLAR_RADIUS in
  let y := sin angle * V1Scene.PILLAR_RADIUS in
  let floor := V1Scene.create_hexagonal_floor in
  nth_error V1Scene.corner_pillars (5 * i) =
    hd_error (V1Scene.create_corner_pillar (x, y, 0) angle) /\
  x * x = y * y /\ Spec.norm2 (x, y) = 6.5 /\
  Forall (fun p => Spec.planar (part_loc p) = (x, y))
         (V1Scene.create_corner_pillar (x, y, 0) angle) /\
  match V1Scene.create_corner_pillar (x, y, 0) angle with
  | [PObj body; PObj base; PObj cap; PObj crystal; PLight l _ _ _] =>
      bottom body = top floor /\ bottom base = top floor /\
      bottom cap = top body /\ bottom crystal - top cap = 0.15 /\
      l = o_loc crystal
  | _ => False
  end.
Proof.
  intros i Hi angle x y floor.
  split.
  { unfold V1Scene.corner_pillars.
    destruct i as [| [| [| [| i]]]]; [| | | | lia]; reflexivity. }
  split.
  { unfold x, y, angle; set (P := V1Scene.PILLAR_RADIUS).
    transitivity (P * P * (cos (V1Scene.corner_pillar_angle i) *
                           cos (V1Scene.corner_pillar_angle i))); [ring |].
    rewrite corner_angle_diagonal; ring. }
  split; [apply norm2_polar_r; unfold V1Scene.PILLAR_RADIUS; lra |].
  split; [repeat constructor |].
  unfold floor, V1Scene.create_hexagonal_floor, V1Scene.create_corner_pillar,
    V1Scene.PILLAR_HEIGHT, V1Scene.PLATFORM_HEIGHT, V1Scene.PLATFORM_SIZE.
  repeat split; heights.
Qed.

Lemma v1_corner_pillar_stack_witness :
  (3 < 4)%nat /\
  nth_error V1Scene.corner_pillars 15 =
    hd_error (V1Scene.create_corner_pillar
                (cos (V1Scene.corner_pillar_angle 3) * V1Scene.PILLAR_RADIUS,
                 sin (V1Scene.corner_pillar_angle 3) * V1Scene.PILLAR_RADIUS, 0)
                (V1Scene.corner_pillar_angle 3)).
Proof.
  split; [lia |].
  exact (proj1 (v1_corner_pillar_stack 3 ltac:(lia))).
Defined.

(** The 24 edge decorations of the first script stand on the floor's top
    face on the circle of radius 7.2; that circle passes between the floor
    hexagon's inner radius (its apothem) and its outer radius, so it
    leaves the floor at the middle of each edge. *)
Theorem v1_edge_decorations_ring :
  let floor := V1Scene.create_hexagonal_floor in
  length V1Scene.create_edge_decorations = 24%nat /\
  Forall (fun o => bottom o = top floor /\
                   Spec.norm2 (Spec.planar (o_loc o)) = 7.2)
         V1Scene.create_edge_decorations /\
  match o_prim floor with
  | Cylinder 6 r _ => r * cos (PI / 6) < 7.2 < r
  | _ => False
  end.
Proof.
  intros floor.
  split; [reflexivity |].
  split.
  - apply Forall_forall; intros o Ho.
    apply in_map_iff in Ho as (i & <- & _).
    unfold V1Scene.edge_decoration, floor, V1Scene.create_hexagonal_floor,
      V1Scene.PLATFORM_SIZE, V1Scene.PLATFORM_HEIGHT; cbv zeta.
    split; [heights |].
    cbn [o_loc Spec.planar].
    rewrite norm2_polar_r by lra; unq; lra.
  - unfold floor, V1Scene.create_hexagonal_floor, V1Scene.PLATFORM_SIZE;
      cbn [o_prim].
    rewrite cos_PI6.
    assert (Hs : sqrt 3 < 1.92) by (apply sqrt_lt_sq; lra).
    split; lra.
Qed.

(* ------------------------------------------------------------------ *)
(** ** The V3 and V4 skull scatters *)

Lemma mapM_ext_M : forall {A B} (f g : A -> Host.M B) l s,
  (forall x s, f x s = g x s) -> Host.mapM f l s = Host.mapM g l s.
Proof.
  intros A B f g l; induction l as [| x l IH]; intros s Hfg; [reflexivity |].
  cbn [Host.mapM]; unfold Host.bind.
  rewrite Hfg; destruct (g x s) as [y s1].
  rewrite IH by exact Hfg; reflexivity.
Qed.

(** A loop whose body adds one object and reads two random draws. *)
Lemma mapM_two_draws : forall (f : nat -> Host.M Obj) (P : Obj -> Prop) z l s,
  (forall i s, f i s =
     (fst (f i s),
      Host.mkSt (Host.st_objs s ++ [fst (f i s)])
                (Host.mkRng (Host.rng_seed (Host.st_rng s))
                            (S (S (Host.rng_pos (Host.st_rng s))))))) ->
  (forall i s, Host.rng_seed (Host.st_rng s) = z -> P (fst (f i s))) ->
  Host.rng_seed (Host.st_rng s) = z ->
  let '(sk, s') := Host.mapM f l s in
  length sk = length l /\ Host.st_objs s' = Host.st_objs s ++ sk /\
  Host.st_rng s' = Host.mkRng z (Host.rng_pos (Host.st_rng s) + 2 * length l) /\
  Forall P sk.
Proof.
  intros f P z l; induction l as [| i l IH]; intros s Hf HP Hz.
  - cbn; rewrite app_nil_r, Nat.add_0_r.
    destruct s as [objs [sd pos]]; cbn in Hz; subst sd.
    repeat split; constructor.
  - cbn [Host.mapM]; unfold Host.bind at 1.
    rewrite Hf.
    set (o := fst (f i s)).
    set (s1 := Host.mkSt _ _).
    assert (Hz1 : Host.rng_seed (Host.st_rng s1) = z) by exact Hz.
    specialize (IH s1 Hf HP Hz1).
    unfold Host.bind; destruct (Host.mapM f l s1) as [sk s'].
    destruct IH as (IH1 & IH2 & IH3 & IH4).
    unfold Host.ret; cbn [length].
    split; [rewrite IH1; reflexivity |].
    split; [rewrite IH2; cbn [Host.st_objs s1]; rewrite <- app_assoc; reflexivity |].
    split; [rewrite IH3; cbn [s1 Host.st_rng Host.rng_pos]; f_equal; lia |].
    constructor; [apply HP, Hz | exact IH4].
Qed.

(** V4's [skulls(count, radius)] runs the same loop as V3's
    [create_skulls(count, radius)]: both add [count] skulls and read two
    draws per skull; when the draws lie in [[0, 1]] and [radius >= 0],
    every skull lies within [radius] of the centre, and its squashed
    icosphere (scale 0.8 in z) straddles the floor's top face. *)
Theorem v3_v4_skulls_in_disc : forall mt count radius s,
  0 <= radius ->
  (forall k, 0 <= mt (Host.rng_seed (Host.st_rng s)) k <= 1) ->
  V4.skulls mt count radius s = V3.create_skulls mt count radius s /\
  let '(sk, s') := V3.create_skulls mt count radius s in
  length sk = count /\ Host.st_objs s' = Host.st_objs s ++ sk /\
  Host.st_rng s' = Host.mkRng (Host.rng_seed (Host.st_rng s))
                              (Host.rng_pos (Host.st_rng s) + 2 * count) /\
  Forall (fun o => Spec.norm2 (Spec.planar (o_loc o)) <= radius /\
                   bottom o < top V3.create_hex_floor < top o) sk.
Proof.
  intros mt count radius s Hr Hmt.
  split.
  { unfold V4.skulls, V3.create_skulls.
    apply mapM_ext_M; intros i s'; reflexivity. }
  unfold V3.create_skulls.
  pose proof (mapM_two_draws (V3.create_skull mt radius)
    (fun o => Spec.norm2 (Spec.planar (o_loc o)) <= radius /\
              bottom o < top V3.create_hex_floor < top o)
    (Host.rng_seed (Host.st_rng s)) (range count) s) as H.
  destruct (Host.mapM (V3.create_skull mt radius) (range count) s) as [sk s'].
  unfold range in H; rewrite length_seq in H; apply H; clear H.
  - intros i [objs [sd pos]]; reflexivity.
  - intros i [objs [sd pos]] Hz; cbn in Hz; subst sd.
    set (u2 := mt (Host.rng_seed (Host.st_rng s)) (S pos)).
    assert (Hu : 0 <= u2 <= 1) by apply Hmt.
    split.
    + change (Spec.norm2 (cos (mt (Host.rng_seed (Host.st_rng s)) pos * V3.tau) *
                            (radius * sqrt u2),
                          sin (mt (Host.rng_seed (Host.st_rng s)) pos * V3.tau) *
                            (radius * sqrt u2)) <= radius).
      assert (Hs0 : 0 <= sqrt u2) by apply sqrt_pos.
      assert (Hs1 : sqrt u2 <= 1)
        by (rewrite <- sqrt_1; apply sqrt_le_1_alt; lra).
      rewrite norm2_polar_r by (apply Rmult_le_pos; assumption).
      nra.
    + unfold V3.create_hex_floor, V3.PLATFORM_HEIGHT.
      unfold V3.create_skull, Host.bind, Host.random_random, Host.add_obj;
        cbn [fst]; split; heights.
  - reflexivity.
Qed.

Lemma v3_v4_skulls_in_disc_witness :
  let mt := fun (_ : Z) (_ : nat) => 1 / 4 in
  let s := Host.mkSt [] (Host.mkRng 42 0) in
  (0 <= 4.8) /\ (forall k, 0 <= mt (Host.rng_seed (Host.st_rng s)) k <= 1) /\
  V4.skulls mt 12 4.8 s = V3.create_skulls mt 12 4.8 s.
Proof.
  intros mt s.
  assert (Hr : 0 <= 4.8) by lra.
  assert (Hmt : forall k, 0 <= mt (Host.rng_seed (Host.st_rng s)) k <= 1)
    by (intros k; unfold mt; lra).
  split; [exact Hr |]; split; [exact Hmt |].
  pose proof (v3_v4_skulls_in_disc mt 12 4.8 s Hr Hmt) as H.
  destruct H as [H _]; exact H.
Defined.

(* ------------------------------------------------------------------ *)
(** ** Edge spikes and the floor *)

Lemma mapM_Forall : forall {A B} (f : A -> Host.M B) (P : B -> Prop) l s,
  (forall x s, P (fst (f x s))) -> Forall P (fst (Host.mapM f l s)).
Proof.
  intros A B f P l; induction l as [| x l IH]; intros s HP; [constructor |].
  cbn [Host.mapM]; unfold Host.bind.
  pose proof (HP x s) as Hx; destruct (f x s) as [y s1]; cbn [fst] in Hx.
  specialize (IH s1 HP); destruct (Host.mapM f l s1) as [ys s2].
  unfold Host.ret; cbn [fst] in *; constructor; assumption.
Qed.

(** The edge spikes of V4 ([edge_spikes]) and V3 ([create_edge_spikes]),
    cones of depth 0.35 centred at height 0.18, all hover 0.005 above the
    top face of their floor, while every V5 spike (depth 0.4 centred at
    0.2) stands exactly on the top face of the V5 floor. *)
Theorem edge_spikes_heights : forall st,
  Forall (fun o => bottom o - top V4.hex_floor = 0.005) V4.edge_spikes /\
  Forall (fun o => bottom o - top V3.create_hex_floor = 0.005)
         V3.create_edge_spikes /\
  Forall (fun o => bottom o = top (fst (V5.create_floor st)))
         (fst (V5.create_edge_spikes st)).
Proof.
  intros st.
  split.
  { unfold V4.edge_spikes; apply Forall_concat, Forall_forall.
    intros l Hl; apply in_map_iff in Hl as (i & <- & _).
    apply Forall_forall; intros o Ho; apply in_map_iff in Ho as (j & <- & _).
    unfold V4.edge_spike, V4.hex_floor, V4.PLATFORM_HEIGHT.
    destruct (V4.edge_spike_point i j) as [x y].
    heights. }
  split.
  { unfold V3.create_edge_spikes; apply Forall_concat, Forall_forall.
    intros l Hl; apply in_map_iff in Hl as (i & <- & _).
    apply Forall_forall; intros o Ho; apply in_map_iff in Ho as (j & <- & _).
    unfold V3.create_edge_spike, V3.create_hex_floor, V3.PLATFORM_HEIGHT.
    heights. }
  assert (Hfloor : top (fst (V5.create_floor st)) = 0).
  { unfold V5.create_floor, Host.add_obj, V5.mk, V5.PLATFORM_HEIGHT; cbn [fst].
    heights. }
  rewrite Hfloor.
  unfold V5.create_edge_spikes, Host.bind, Host.ret.
  pose proof (mapM_Forall (fun edge => Host.mapM (V5.create_spike edge) (range 3))
                (Forall (fun o => bottom o = 0)) (range 6) st) as HF.
  destruct (Host.mapM (fun edge => Host.mapM (V5.create_spike edge) (range 3))
              (range 6) st) as [per_edge s'].
  cbn [fst] in *.
  apply Forall_concat, HF; intros edge s; apply mapM_Forall; intros i s1.
  unfold V5.create_spike.
  destruct (V5.spike_position edge i) as [x y].
  unfold Host.add_obj, V5.mk; cbn [fst]; heights.
Qed.

(* ------------------------------------------------------------------ *)
(** ** The V4 runes *)

Lemma polar_dist_sq : forall a b r q,
  (cos b * q - cos a * r) ^ 2 + (sin b * q - sin a * r) ^ 2 =
  r * r + q * q - 2 * r * q * cos (a - b).
Proof.
  intros a b r q; rewrite cos_minus.
  pose proof (sin2_cos2 a) as Ha; pose proof (sin2_cos2 b) as Hb.
  unfold Rsqr in Ha, Hb.
  transitivity (r * r * (sin a * sin a + cos a * cos a) +
                q * q * (sin b * sin b + cos b * cos b) -
                2 * r * q * (cos a * cos b + sin a * sin b)); [ring |].
  rewrite Ha, Hb; ring.
Qed.

(** Rune [i] of [runes(radius, 6)], as the build calls it, lies on the
    circle of [radius] at height 0.03, equally far from pillar [i] and
    pillar [i + 1] (the next one, cyclically), and the plane is turned so
    that its local x axis is tangent to the circle. *)
Theorem v4_runes_between_pillars : forall radius i, (i < 6)%nat ->
  0 <= radius ->
  length (V4.runes radius 6) = 6%nat /\
  exists o, nth_error (V4.runes radius 6) i = Some o /\
  let p := Spec.planar (o_loc o) in
  let '(_, _, rz) := o_rot o in
  z_of (o_loc o) = 0.03 /\ Spec.norm2 p = radius /\
  dist2 p (nth i V4.pillar_positions (0, 0)) =
    dist2 p (nth ((i + 1) mod V4.NUM_SIDES) V4.pillar_positions (0, 0)) /\
  cos rz * fst p + sin rz * snd p = 0.
Proof.
  intros radius i Hi Hr.
  split; [unfold V4.runes, range; rewrite length_map, length_seq; reflexivity |].
  exists (V4.rune radius 6 i); split.
  { unfold V4.runes, range; rewrite nth_error_map.
    rewrite nth_error_seq.
    destruct (Nat.ltb_spec i 6); [reflexivity | lia]. }
  unfold V4.rune; cbn [o_loc o_rot Spec.planar z_of fst snd].
  set (a := V4.rune_angle 6 i).
  assert (Hpill : forall j, (j < 6)%nat ->
            nth j V4.pillar_positions (0, 0) = V4.pillar_position j).
  { intros j Hj; unfold V4.pillar_positions, range.
    rewrite nth_indep with (d' := V4.pillar_position 0)
      by (rewrite length_map, length_seq; exact Hj).
    rewrite map_nth, seq_nth by exact Hj; reflexivity. }
  assert (Hd : forall j, (j < 6)%nat ->
            dist2 (cos a * radius, sin a * radius)
                  (nth j V4.pillar_positions (0, 0)) =
            sqrt (radius * radius + V4.PILLAR_RADIUS_POS * V4.PILLAR_RADIUS_POS -
                  2 * radius * V4.PILLAR_RADIUS_POS *
                  cos (a - (PI / 6 + INR j * PI / 3 - PI / 6)))).
  { intros j Hj; rewrite Hpill by exact Hj.
    unfold dist2, V4.pillar_position; cbn [fst snd].
    rewrite polar_dist_sq; reflexivity. }
  split; [reflexivity |].
  split.
  { unfold Spec.norm2; cbn [fst snd].
    replace (cos a * radius * (cos a * radius) + sin a * radius * (sin a * radius))
      with (radius * radius * (Rsqr (sin a) + Rsqr (cos a))) by (unfold Rsqr; ring).
    rewrite sin2_cos2, Rmult_1_r; apply sqrt_square; exact Hr. }
  split.
  { rewrite (Hd i Hi), (Hd ((i + 1) mod V4.NUM_SIDES)%nat)
      by (apply Nat.mod_upper_bound; unfold V4.NUM_SIDES; lia).
    f_equal; f_equal; f_equal.
    unfold a, V4.rune_angle, V4.tau.
    destruct i as [|[|[|[|[|[|i]]]]]]; try lia;
      match goal with
      | |- context [((?n + 1) mod V4.NUM_SIDES)%nat] =>
          let m := eval vm_compute in ((n + 1) mod V4.NUM_SIDES)%nat in
          change ((n + 1) mod V4.NUM_SIDES)%nat with m
      end;
      (transitivity (cos (PI / 6)); [f_equal; cbn [INR]; field |]);
      match goal with
      | |- _ = cos ?x =>
          first
            [ replace x with (- (PI / 6)) by (cbn [INR]; field);
              rewrite cos_neg; reflexivity
            | replace x with (- (PI / 6) + 2 * PI) by (cbn [INR]; field);
              rewrite cos_plus, cos_2PI, sin_2PI, cos_neg; ring ]
      end. }
  rewrite cos_plus, sin_plus, cos_PI2, sin_PI2; ring.
Qed.

Lemma v4_runes_between_pillars_witness :
  length (V4.runes 5.4 6) = 6%nat.
Proof.
  pose proof (v4_runes_between_pillars 5.4 2 ltac:(lia) ltac:(lra)) as H.
  destruct H as [H _]; exact H.
Defined.
